(** * speed-cloudflare-cli: the measurement engine of [cli.js]

    A shallow embedding of the measuring part of [cli.js] and the properties
    its specification states about it.

    - A JavaScript Number is an IEEE 754 binary64 value: Rocq's primitive
      [float], whose operations are the same correctly rounded ones.
    - [undefined] in a slot that otherwise holds a Number is [None].
    - The network and the clock are an oracle [net]: for the [k]-th request
      of the run it says which events Node's [https] module raises and what
      [performance.now()] reads at each of them.
    - An [async] function is a state transformer over the [World] (the
      requests written so far and the console) whose result says how the
      promise settles. *)

From Stdlib Require Import List String Ascii Bool Arith ZArith NArith Lia.
From Stdlib Require Import Floats DecimalString DecimalN Sorted.
Import ListNotations.

Local Open Scope string_scope.
Local Open Scope list_scope.

(* ================================================================= *)
(** ** JavaScript values and built-ins used by [cli.js] *)

(** [ToNumber] on a slot that holds a Number or [undefined]:
    [undefined] becomes [NaN]. *)
Definition ToNumber (v : option float) : float :=
  match v with
  | Some x => x
  | None => nan
  end.

(** The Number of a non-negative integer (an integer literal of the
    source), rounded to nearest-even as the literal is. *)
Definition Num (n : N) : float :=
  SF2Prim (binary_normalize prec emax (Z.of_N n) 0 false).

(** [`${n}`] for a Number that is a non-negative integer up to [2 ^ 53],
    which a Number holds exactly: its decimal digits. Above [2 ^ 53] the
    source prints the digits of the nearest Number, and from [10 ^ 21] on
    in exponent notation; what is stated about the text of a target is
    stated up to [2 ^ 53]. *)
Definition NumberToString (n : N) : string :=
  NilZero.string_of_uint (N.to_uint n).

(** Errors that reach a promise or the top of the event loop. *)
Inductive JsError : Type :=
| NetworkError (cause : string)  (* the ['error'] event of a request *)
| TypeError (message : string)   (* a property read on [undefined] *)
| InvalidInput.                  (* raised by the statistics module *)

(** The completion of a synchronous call. *)
Inductive Completion (A : Type) : Type :=
| Normal (a : A)
| Throw (e : JsError).
Arguments Normal {A} a.
Arguments Throw {A} e.

(** *** [Math.min] and [Math.max] over a spread array *)

Definition is_nan (x : float) : bool := negb (x =? x)%float.

Definition is_neg_zero (x : float) : bool :=
  match classify x with NZero => true | _ => false end.

Definition is_pos_zero (x : float) : bool :=
  match classify x with PZero => true | _ => false end.

(** One step of [Math.min]: [lowest] is the running result, [None] once a
    NaN was met. *)
Definition min_step (lowest : option float) (x : float) : option float :=
  match lowest with
  | None => None
  | Some lo =>
      if is_nan x then None
      else if is_neg_zero x && is_pos_zero lo then Some x
      else if (x <? lo)%float then Some x
      else Some lo
  end.

Definition max_step (highest : option float) (x : float) : option float :=
  match highest with
  | None => None
  | Some hi =>
      if is_nan x then None
      else if is_pos_zero x && is_neg_zero hi then Some x
      else if (hi <? x)%float then Some x
      else Some hi
  end.

(** [Math.min(...xs)]: [+Infinity] for no argument, [NaN] when any
    argument is [NaN]. *)
Definition Math_min (xs : list float) : float :=
  ToNumber (fold_left min_step xs (Some infinity)).

(** [Math.max(...xs)]: [-Infinity] for no argument. *)
Definition Math_max (xs : list float) : float :=
  ToNumber (fold_left max_step xs (Some neg_infinity)).

(** *** Strings *)

(** [s.slice(n)] for [n >= 0]: [s] without its first [n] characters. *)
Fixpoint slice (n : nat) (s : string) : string :=
  match n, s with
  | O, _ => s
  | S _, EmptyString => EmptyString
  | S k, String _ r => slice k r
  end.

(** [s.repeat(n)]. *)
Fixpoint String_repeat (s : string) (n : nat) : string :=
  match n with
  | O => EmptyString
  | S k => s ++ String_repeat s k
  end.

(** [Buffer.byteLength(s)] of a string held as its UTF-8 bytes. *)
Definition Buffer_byteLength (s : string) : N := N.of_nat (String.length s).

(** *** [parseFloat] *)

Definition is_digit (c : ascii) : bool :=
  ((48 <=? nat_of_ascii c) && (nat_of_ascii c <=? 57))%nat.

Definition digit_value (c : ascii) : N := (N_of_ascii c - 48)%N.

(** White space and line terminators among the characters below 256, as
    a header value holds them: tab to carriage return, space, and the
    no-break space U+00A0. *)
Definition is_space (c : ascii) : bool :=
  let n := nat_of_ascii c in
  ((n =? 32) || ((9 <=? n) && (n <=? 13)) || (n =? 160))%nat.

Fixpoint trim_start (s : string) : string :=
  match s with
  | String c r => if is_space c then trim_start r else s
  | EmptyString => s
  end.

(** The longest run of decimal digits at the head of [s]: [acc] extended
    by their value, their count added to [cnt], and what follows them. *)
Fixpoint read_digits (acc : N) (cnt : nat) (s : string) : N * nat * string :=
  match s with
  | String c r =>
      if is_digit c then read_digits (10 * acc + digit_value c)%N (S cnt) r
      else (acc, cnt, s)
  | EmptyString => (acc, cnt, s)
  end.

(** An optional sign: whether it is [-], and what follows it. *)
Definition read_sign (s : string) : bool * string :=
  match s with
  | String "-" r => (true, r)
  | String "+" r => (false, r)
  | _ => (false, s)
  end.

(** The exponent part [e], [e+], [e-] followed by at least one digit;
    [0] when there is none. *)
Definition read_exponent (s : string) : Z :=
  match s with
  | String c r =>
      if (Ascii.eqb c "e" || Ascii.eqb c "E")%bool then
        let (neg, r1) := read_sign r in
        let '(v, cnt, _) := read_digits 0 0 r1 in
        match cnt with
        | O => 0%Z
        | S _ => if neg then (- Z.of_N v)%Z else Z.of_N v
        end
      else 0%Z
  | EmptyString => 0%Z
  end.

(** The Number nearest to [m * 10 ^ e10] (ties to even), negated when
    [neg]. For a negative [e10] the quotient is taken with 64 bits and a
    sticky bit, which [binary_normalize] then rounds once. *)
Definition round_decimal (neg : bool) (m : N) (e10 : Z) : float :=
  match m with
  | N0 => if neg then neg_zero else zero
  | Npos p =>
      let sf :=
        if (0 <=? e10)%Z
        then binary_normalize prec emax (Zpos p * 10 ^ e10) 0 false
        else
          let d := (10 ^ (- e10))%Z in
          let k := Z.max 0 (64 + Z.log2 d - Z.log2 (Zpos p)) in
          let n := (Zpos p * 2 ^ k)%Z in
          let sticky := if (n mod d =? 0)%Z then 0%Z else 1%Z in
          binary_normalize prec emax (2 * (n / d) + sticky) (- k - 1) false
      in
      if neg then (- SF2Prim sf)%float else SF2Prim sf
  end.

(** [parseFloat(s)]: the value of the longest prefix of [s], after leading
    white space, that is a decimal literal; [NaN] when there is none. *)
Definition parseFloat (s : string) : float :=
  let (neg, s1) := read_sign (trim_start s) in
  if prefix "Infinity" s1 then (if neg then neg_infinity else infinity)
  else
    let '(ip, ni, s2) := read_digits 0 0 s1 in
    let '(mant, nf, s3) :=
      match s2 with
      | String "." r => read_digits ip 0 r
      | _ => (ip, O, s2)
      end in
    match (ni + nf)%nat with
    | O => nan
    | S _ => round_decimal neg mant (read_exponent s3 - Z.of_nat nf)
    end.

(* ================================================================= *)
(** ** The statistics module [stats.js] *)

(** [cli.js] requires [./stats.js] and calls [stats.average],
    [stats.median] and [stats.quartile]; the file is not among the sources,
    so the three functions follow the specification (section 4.1). *)
Module stats.

(** Modelled from the spec: "sort ascending", by insertion into a sorted
    list. *)
Fixpoint insert (x : float) (xs : list float) : list float :=
  match xs with
  | [] => [x]
  | y :: r => if (x <=? y)%float then x :: xs else y :: insert x r
  end.

Definition sort (xs : list float) : list float := fold_right insert [] xs.

(** Modelled from the spec: the "sum" and the "count" of a sequence. *)
Definition sum (xs : list float) : float := fold_left add xs 0%float.

Definition count (xs : list float) : float := Num (N.of_nat (List.length xs)).

(** Modelled from the spec: "floor(i)", the largest integer not above a
    finite [x]. *)
Definition floor (x : float) : Z :=
  match Prim2SF x with
  | S754_finite false m e => Z.shiftl (Zpos m) e
  | S754_finite true m e => Z.shiftl (Zneg m) e
  | _ => 0%Z
  end.

(** Modelled from the spec: [average] of [stats.js], which is not among
    the sources. "sum divided by count"; an empty sequence "fails with an
    InvalidInput error". *)
Definition average (xs : list float) : Completion float :=
  match xs with
  | [] => Throw InvalidInput
  | _ :: _ => Normal (sum xs / count xs)%float
  end.

(** Modelled from the spec: [median] of [stats.js], which is not among
    the sources. "sort ascending; if count is odd, the middle element; if
    even, the mean of the two middle elements". *)
Definition median (xs : list float) : Completion float :=
  match xs with
  | [] => Throw InvalidInput
  | _ :: _ =>
      let s := sort xs in
      let half := Nat.div2 (List.length s) in
      if Nat.odd (List.length s) then Normal (nth half s nan)
      else Normal ((nth (half - 1) s nan + nth half s nan) / 2)%float
  end.

(** Modelled from the spec: [quartile] of [stats.js] (the specification's
    [quantile]), which is not among the sources. "sort ascending, compute
    the index i = q * (n-1); if i is integral return xs[i]; otherwise
    linearly interpolate between xs[floor(i)] and xs[ceil(i)] weighted by
    the fractional part". *)
Definition quartile (xs : list float) (q : float) : Completion float :=
  match xs with
  | [] => Throw InvalidInput
  | _ :: _ =>
      let s := sort xs in
      let i := (q * Num (N.of_nat (List.length s - 1)))%float in
      let base := Z.to_nat (floor i) in
      let rest := (i - Num (N.of_nat base))%float in
      let lo := nth base s nan in
      if (rest =? 0)%float then Normal lo
      else Normal (lo + rest * (nth (S base) s nan - lo))%float
  end.

End stats.

(* ================================================================= *)
(** ** The network, the console and promises *)

(** The [options] object handed to [https.request]. [headers] holds the
    one numeric header the source sets. *)
Record Options : Type := {
  hostname : string;
  path : string;
  method : string;
  headers : list (string * N)
}.

(** What one call of [request] puts on the wire: the options and the data
    written with [req.write]. *)
Record Outgoing : Type := {
  options : Options;
  body : string
}.

(** What [performance.now()] reads when each event of a completed exchange
    is raised; [None] for an event that is not raised ([lookup], [connect]
    and [secureConnect] on a reused socket). *)
Record Timeline : Type := {
  at_request : float;
  at_lookup : option float;
  at_connect : option float;
  at_secureConnect : option float;
  at_readable : option float;
  at_end : float
}.

(** How Node answers one request: the request raises ['error'], or the
    response raises ['end'], with its [server-timing] header if it has
    one. *)
Inductive Exchange : Type :=
| Errored (cause : string)
| Ended (t : Timeline) (server_timing : option string).

(** The oracle: the answer to the [k]-th request of the run. *)
Definition Network : Type := nat -> Outgoing -> Exchange.

(** A line of [console.log]. Colours and padding are left out; a number
    printed with [toFixed(2)] is kept as the number. *)
Inductive ConsoleLine : Type :=
| LogError (error : JsError)                             (* `Error: ${error}` *)
| LogFixed (label : string) (value : float) (unit_ : string).

Record World : Type := {
  sent : list Outgoing;
  console : list ConsoleLine
}.

(** How an awaited promise settles; [Crashed] when a listener threw and
    nothing caught it, which ends the process. *)
Inductive Settled (A : Type) : Type :=
| Fulfilled (a : A)
| Rejected (e : JsError)
| Crashed (e : JsError).
Arguments Fulfilled {A} a.
Arguments Rejected {A} e.
Arguments Crashed {A} e.

Definition Async (A : Type) : Type := World -> Settled A * World.

Definition ret {A} (a : A) : Async A := fun w => (Fulfilled a, w).

(** [await m], then [k]: a rejection leaves the [async] function. *)
Definition bind {A B} (m : Async A) (k : A -> Async B) : Async B :=
  fun w =>
    match m w with
    | (Fulfilled a, w') => k a w'
    | (Rejected e, w') => (Rejected e, w')
    | (Crashed e, w') => (Crashed e, w')
    end.

(** [m.then(onFulfilled, onRejected)]. *)
Definition then2 {A B} (m : Async A) (onFulfilled : A -> Async B)
    (onRejected : JsError -> Async B) : Async B :=
  fun w =>
    match m w with
    | (Fulfilled a, w') => onFulfilled a w'
    | (Rejected e, w') => onRejected e w'
    | (Crashed e, w') => (Crashed e, w')
    end.

(** A synchronous call inside an [async] function: a throw rejects. *)
Definition call {A} (c : Completion A) : Async A :=
  fun w =>
    match c with
    | Normal a => (Fulfilled a, w)
    | Throw e => (Rejected e, w)
    end.

Definition console_log (l : ConsoleLine) : Async unit :=
  fun w => (Fulfilled tt, {| sent := sent w; console := console w ++ [l] |}).

(** [for (let i = 0; i < n; i += 1) { await body }] over the array the
    body pushes to. *)
Fixpoint for_ {A} (n : nat) (body : A -> Async A) (acc : A) : Async A :=
  match n with
  | O => ret acc
  | S k => bind (body acc) (for_ k body)
  end.

Declare Scope async_scope.
Delimit Scope async_scope with async.
Notation "x <- m ;; k" := (bind m (fun x => k))
  (at level 100, m at next level, right associativity) : async_scope.
Notation "m ;; k" := (bind m (fun _ => k))
  (at level 100, right associativity) : async_scope.

(* ================================================================= *)
(** ** [cli.js] *)

(** The array [request] resolves with; the field of index [i] is
    [response[i]]. *)
Record Response : Type := {
  started : float;               (* response[0] *)
  dnsLookup : option float;      (* response[1] *)
  tcpHandshake : option float;   (* response[2] *)
  sslHandshake : option float;   (* response[3] *)
  ttfb : option float;           (* response[4] *)
  ended : float;                 (* response[5] *)
  serverTiming : float           (* response[6] *)
}.

(** [measureSpeed(bytes, duration)]. *)
Definition measureSpeed (bytes duration : float) : float :=
  ((bytes * 8) / (duration / 1000) / 1e6)%float.

Section Cli.

Variable net : Network.

Local Open Scope async_scope.

(** [request(options, data)]. The listeners store the clock at each
    event; on ['end'] the promise resolves with the seven values, the last
    one read from the [server-timing] header. A response without that
    header makes the ['end'] listener throw on [undefined.slice]: the
    throw is outside the promise's executor, so nothing catches it. *)
Definition request (options : Options) (data : string) : Async Response :=
  fun w =>
    let out := {| options := options; body := data |} in
    let w' := {| sent := sent w ++ [out]; console := console w |} in
    match net (List.length (sent w)) out with
    | Errored cause => (Rejected (NetworkError cause), w')
    | Ended t None =>
        (Crashed (TypeError "Cannot read property 'slice' of undefined"), w')
    | Ended t (Some header) =>
        (Fulfilled {| started := at_request t;
                      dnsLookup := at_lookup t;
                      tcpHandshake := at_connect t;
                      sslHandshake := at_secureConnect t;
                      ttfb := at_readable t;
                      ended := at_end t;
                      serverTiming := parseFloat (slice 22 header) |}, w')
    end.

(** [download(bytes)]. *)
Definition download (bytes : N) : Async Response :=
  let options := {| hostname := "speed.cloudflare.com";
                    path := "/__down?bytes=" ++ NumberToString bytes;
                    method := "GET";
                    headers := [] |} in
  request options "".

(** [upload(bytes)]. *)
Definition upload (bytes : N) : Async Response :=
  let data := String_repeat "0" (N.to_nat bytes) in
  let options := {| hostname := "speed.cloudflare.com";
                    path := "/__up";
                    method := "POST";
                    headers := [("Content-Length", Buffer_byteLength data)] |} in
  request options data.

(** The loop of [measureLatency], for [n] iterations. *)
Definition latencyLoop (n : nat) : list float -> Async (list float) :=
  for_ n (fun measurements =>
    then2 (download 1000)
      (fun response =>
         (* TTFB - Server processing time *)
         ret (measurements ++
                [(ToNumber (ttfb response) - started response
                  - serverTiming response)%float]))
      (fun error =>
         console_log (LogError error) ;; ret measurements)).

(** [measureLatency()]. *)
Definition measureLatency : Async (float * float * float * float) :=
  measurements <- latencyLoop 20 [] ;;
  let lo := Math_min measurements in
  let hi := Math_max measurements in
  avg <- call (stats.average measurements) ;;
  med <- call (stats.median measurements) ;;
  ret (lo, hi, avg, med).

(** [measureDownload(bytes, iterations)], from the array
    [measurements]. *)
Definition downloadLoop (bytes : N) (iterations : nat)
  : list float -> Async (list float) :=
  for_ iterations (fun measurements =>
    then2 (download bytes)
      (fun response =>
         let transferTime := (ended response - ToNumber (ttfb response))%float in
         ret (measurements ++ [measureSpeed (Num bytes) transferTime]))
      (fun error =>
         console_log (LogError error) ;; ret measurements)).

Definition measureDownload (bytes : N) (iterations : nat) : Async (list float) :=
  downloadLoop bytes iterations [].

(** [measureUpload(bytes, iterations)], from the array [measurements]. *)
Definition uploadLoop (bytes : N) (iterations : nat)
  : list float -> Async (list float) :=
  for_ iterations (fun measurements =>
    then2 (upload bytes)
      (fun response =>
         let transferTime := serverTiming response in
         ret (measurements ++ [measureSpeed (Num bytes) transferTime]))
      (fun error =>
         console_log (LogError error) ;; ret measurements)).

Definition measureUpload (bytes : N) (iterations : nat) : Async (list float) :=
  uploadLoop bytes iterations [].

(** [logSpeedTestResult(size, test)]. *)
Definition logSpeedTestResult (size : string) (test : list float) : Async unit :=
  speed <- call (stats.median test) ;;
  console_log (LogFixed (size ++ " speed") speed "Mbps").

(** The literal [0.9]. *)
Definition nine_tenths : float := 0x1.ccccccccccccdp-1%float.

(** [speedTest()], lines 231 to 233: the latency stage. *)
Definition latencyStage : Async unit :=
  ping <- measureLatency ;;
  let '(_, _, _, ping3) := ping in
  console_log (LogFixed "Latency" ping3 "ms").

(** [speedTest()], lines 235 to 272: the download stage. *)
Definition downloadStage : Async unit :=
  test1 <- measureDownload 11000 10 ;;
  logSpeedTestResult "10kB" test1 ;;
  test2 <- measureDownload 101000 10 ;;
  logSpeedTestResult "100kB" test2 ;;
  test3 <- measureDownload 1001000 8 ;;
  logSpeedTestResult "1MB" test3 ;;
  test4 <- measureDownload 10001000 5 ;;
  logSpeedTestResult "10MB" test4 ;;
  test5 <- measureDownload 25001000 5 ;;
  logSpeedTestResult "25MB" test5 ;;
  test6 <- measureDownload 100001000 5 ;;
  logSpeedTestResult "100MB" test6 ;;
  speed <- call (stats.quartile
                   (test1 ++ test2 ++ test3 ++ test4 ++ test5 ++ test6)
                   nine_tenths) ;;
  console_log (LogFixed "Download speed" speed "Mbps").

(** [speedTest()], lines 274 to 286: the upload stage. *)
Definition uploadStage : Async unit :=
  test7 <- measureUpload 11000 10 ;;
  test8 <- measureUpload 101000 10 ;;
  test9 <- measureUpload 1001000 8 ;;
  speed <- call (stats.quartile (test7 ++ test8 ++ test9) nine_tenths) ;;
  console_log (LogFixed "Upload speed" speed "Mbps").

(** [speedTest()]. [metadata] stands for lines 222 to 229, the two
    lookups of server and client data and their two [logInfo] lines. *)
Definition speedTest (metadata : Async unit) : Async unit :=
  metadata ;;
  latencyStage ;;
  downloadStage ;;
  uploadStage.

End Cli.

(* ================================================================= *)
(** ** The specification's vocabulary *)

(** What the specification says in its own terms, to be compared with the
    code above. *)
Module Spec.

(** Section 4.3: [throughputMbps(bytes, durationMs) =
    (bytes * 8) / (durationMs / 1000) / 1_000_000]. *)
Definition throughputMbps (bytes durationMs : float) : float :=
  ((bytes * 8) / (durationMs / 1000) / 1000000)%float.

(** Section 6: a download is a GET with a query parameter giving the byte
    count; an upload is a POST with [Content-Length] and a body of that
    many bytes. *)
Definition download_request (bytes : N) : Outgoing :=
  {| options := {| hostname := "speed.cloudflare.com";
                   path := "/__down?bytes=" ++ NumberToString bytes;
                   method := "GET";
                   headers := [] |};
     body := "" |}.

Definition upload_request (bytes : N) : Outgoing :=
  {| options := {| hostname := "speed.cloudflare.com";
                   path := "/__up";
                   method := "POST";
                   headers := [("Content-Length", bytes)] |};
     body := String_repeat "0" (N.to_nat bytes) |}.

(** The value of the query parameter [bytes] of a request target, as the
    server reads it: the decimal number after [?bytes=]. *)
Definition query_bytes (target : string) : option N :=
  match index 0 "?bytes=" target with
  | Some i => option_map N.of_uint (NilZero.uint_of_string (slice (i + 7) target))
  | None => None
  end.

(** The three stages of section 4.4, each with its payload size. *)
Inductive Stage : Type :=
| Latency
| Download (payloadSize : N)
| Upload (payloadSize : N).

Definition request_of (s : Stage) : Outgoing :=
  match s with
  | Latency => download_request 1000
  | Download bytes => download_request bytes
  | Upload bytes => upload_request bytes
  end.

(** The value a stage derives from one completed probe: the network-only
    latency [timeToFirstByte - started - serverProcessingTimeMs]; the
    download rate over [ended - timeToFirstByte]; the upload rate over the
    duration the server reports. *)
Definition sample_of (s : Stage) (r : Response) : float :=
  match s with
  | Latency => (ToNumber (ttfb r) - started r - serverTiming r)%float
  | Download bytes =>
      throughputMbps (Num bytes) (ended r - ToNumber (ttfb r))%float
  | Upload bytes => throughputMbps (Num bytes) (serverTiming r)
  end.

(** The answers to the [n] requests [out] that start at request number
    [k]. *)
Definition exchanges (net : Network) (k n : nat) (out : Outgoing) : list Exchange :=
  map (fun i => net (k + i)%nat out) (seq 0 n).

(** A response came with its timing header, or the request failed. *)
Definition has_header (x : Exchange) : bool :=
  match x with
  | Ended _ None => false
  | _ => true
  end.

Definition answered (xs : list Exchange) : Prop := forallb has_header xs = true.

Definition failed (x : Exchange) : bool :=
  match x with
  | Errored _ => true
  | Ended _ _ => false
  end.

(** The timing sample of a completed exchange. *)
Definition response_of (t : Timeline) (header : string) : Response :=
  {| started := at_request t;
     dnsLookup := at_lookup t;
     tcpHandshake := at_connect t;
     sslHandshake := at_secureConnect t;
     ttfb := at_readable t;
     ended := at_end t;
     serverTiming := parseFloat (slice 22 header) |}.

(** The samples of the successful probes, in order. *)
Definition responses (xs : list Exchange) : list Response :=
  flat_map (fun x => match x with
                     | Ended t (Some header) => [response_of t header]
                     | _ => []
                     end) xs.

(** One console line per failed probe, in order. *)
Definition error_lines (xs : list Exchange) : list ConsoleLine :=
  flat_map (fun x => match x with
                     | Errored cause => [LogError (NetworkError cause)]
                     | _ => []
                     end) xs.

(** The report of the latency stage over its samples: min, max, average,
    median. *)
Definition latency_report (samples : list float)
  : Settled (float * float * float * float) :=
  match stats.average samples, stats.median samples with
  | Normal avg, Normal med =>
      Fulfilled (Math_min samples, Math_max samples, avg, med)
  | Throw e, _ => Rejected e
  | _, Throw e => Rejected e
  end.

(** The test plan (section 3): the stages in order, each with its
    iteration count. *)
Definition download_plan : list (Stage * nat) :=
  [(Download 11000, 10); (Download 101000, 10); (Download 1001000, 8);
   (Download 10001000, 5); (Download 25001000, 5); (Download 100001000, 5)]%nat.

Definition download_labels : list string :=
  ["10kB"; "100kB"; "1MB"; "10MB"; "25MB"; "100MB"].

Definition upload_plan : list (Stage * nat) :=
  [(Upload 11000, 10); (Upload 101000, 10); (Upload 1001000, 8)]%nat.

Definition payload (s : Stage) : N :=
  match s with
  | Latency => 1000
  | Download bytes => bytes
  | Upload bytes => bytes
  end.

(** Every request of a plan, in order. *)
Definition plan_requests (plan : list (Stage * nat)) : list Outgoing :=
  flat_map (fun '(s, n) => repeat (request_of s) n) plan.

(** A plan run from request number [k]: for each entry the answers to its
    probes and the samples of the successful ones. *)
Fixpoint run_plan (net : Network) (k : nat) (plan : list (Stage * nat))
  : list (list Exchange * list float) :=
  match plan with
  | [] => []
  | (s, n) :: rest =>
      let xs := exchanges net k n (request_of s) in
      (xs, map (sample_of s) (responses xs)) :: run_plan net (k + n) rest
  end.

(** The union of the per-size samples of a run. *)
Definition all_samples (run : list (list Exchange * list float)) : list float :=
  List.concat (map snd run).

(** The console of the download stage: per size the failed probes and the
    median, then the headline figure. *)
Fixpoint size_lines (run : list (list Exchange * list float))
    (labels : list string) (medians : list float) : list ConsoleLine :=
  match run, labels, medians with
  | (xs, _) :: run', l :: labels', m :: medians' =>
      error_lines xs ++ LogFixed (l ++ " speed") m "Mbps"
        :: size_lines run' labels' medians'
  | _, _, _ => []
  end.

Definition download_console (run : list (list Exchange * list float))
    (medians : list float) (headline : float) : list ConsoleLine :=
  size_lines run download_labels medians
    ++ [LogFixed "Download speed" headline "Mbps"].

(** The console of the upload stage: the failed probes, then the headline
    figure. *)
Definition upload_console (run : list (list Exchange * list float))
    (headline : float) : list ConsoleLine :=
  flat_map (fun r => error_lines (fst r)) run
    ++ [LogFixed "Upload speed" headline "Mbps"].

(** Two completed exchanges that differ at most in what the clock read at
    [lookup], [connect] and [secureConnect]. *)
Definition same_but_handshake (x y : Exchange) : Prop :=
  match x, y with
  | Errored c, Errored c' => c = c'
  | Ended t h, Ended t' h' =>
      at_request t = at_request t' /\ at_readable t = at_readable t' /\
      at_end t = at_end t' /\ h = h'
  | _, _ => False
  end.

(** A result that is a rejection with [InvalidInput], reached from the
    world [w] with nothing but failed probes logged: no figure was
    printed. *)
Definition rejected_without_figure {A} (w : World) (r : Settled A * World) : Prop :=
  fst r = Rejected InvalidInput
  /\ exists errors : list JsError, console (snd r) = console w ++ map LogError errors.

(** The world after one more request that left no line on the console. *)
Definition after_request (w : World) (out : Outgoing) : World :=
  {| sent := sent w ++ [out]; console := console w |}.

(** The world after one more request whose failure was logged. *)
Definition after_failure (w : World) (out : Outgoing) (cause : string) : World :=
  {| sent := sent w ++ [out];
     console := console w ++ [LogError (NetworkError cause)] |}.

End Spec.

(** The loop of a stage in [cli.js]. *)
Definition loop_of (net : Network) (s : Spec.Stage)
  : nat -> list float -> Async (list float) :=
  match s with
  | Spec.Latency => latencyLoop net
  | Spec.Download bytes => downloadLoop net bytes
  | Spec.Upload bytes => uploadLoop net bytes
  end.

(** The body the three loops share, up to the request [out] and the value
    [f] pushed: the request, a push when it resolves, a line on the console
    when it rejects. *)
Definition probe (net : Network) (out : Outgoing) (f : Response -> float)
    (measurements : list float) : Async (list float) :=
  then2 (request net (options out) (body out))
    (fun response => ret (measurements ++ [f response]))
    (fun error => bind (console_log (LogError error)) (fun _ => ret measurements)).

(** The number of requests written so far, in a world built by the
    loops. *)
Ltac sent_length :=
  cbn [sent]; rewrite ?length_app, ?repeat_length; reflexivity.

(* ================================================================= *)
(** ** Scenarios *)

Module Scenario.

Definition start : World := {| sent := []; console := [] |}.

Definition header : string := "cfRequestDuration;dur=15.000029".

(** A fresh connection: every event is raised. *)
Definition fresh : Timeline :=
  {| at_request := 100; at_lookup := Some 104%float;
     at_connect := Some 110%float; at_secureConnect := Some 125%float;
     at_readable := Some 150%float; at_end := 200 |}.

(** The same exchange on a reused socket. *)
Definition reused : Timeline :=
  {| at_request := 100; at_lookup := None; at_connect := None;
     at_secureConnect := None; at_readable := Some 150%float; at_end := 200 |}.

(** The whole body is there when the response becomes readable. *)
Definition instant : Timeline :=
  {| at_request := 100; at_lookup := None; at_connect := None;
     at_secureConnect := None; at_readable := Some 150%float; at_end := 150 |}.

Definition steady : Network := fun _ _ => Ended fresh (Some header).

Definition pooled : Network := fun _ _ => Ended reused (Some header).

Definition immediate : Network := fun _ _ => Ended instant (Some header).

(** Every third request is reset, the first one included. *)
Definition flaky : Network :=
  fun k _ => if (k mod 3 =? 0)%nat then Errored "ECONNRESET"
             else Ended fresh (Some header).

(** No request gets through. *)
Definition down : Network := fun _ _ => Errored "ENOTFOUND".

(** A timing header that lists another metric first: no number at
    offset 22. *)
Definition cache_first : string :=
  "cfCacheStatus;desc=HIT, cfRequestDuration;dur=15.000029".

Definition garbled : Network := fun _ _ => Ended fresh (Some cache_first).

(** The response has no timing header. *)
Definition bare : Network := fun _ _ => Ended fresh None.

(** Section 8 of the specification: twenty latency probes of 15 ms, but
    for one of 200 ms. The server reports 15 ms of its own each time. *)
Definition quick : Timeline :=
  {| at_request := 100; at_lookup := None; at_connect := None;
     at_secureConnect := None; at_readable := Some 130%float; at_end := 131 |}.

Definition late : Timeline :=
  {| at_request := 100; at_lookup := None; at_connect := None;
     at_secureConnect := None; at_readable := Some 315%float; at_end := 316 |}.

Definition outlier : Network :=
  fun k _ => Ended (if (k =? 7)%nat then late else quick)
               (Some "cfRequestDuration;dur=15").

(** The first request is reset and the third response has no timing
    header. *)
Definition headerless_third : Network :=
  fun k _ => if (k =? 0)%nat then Errored "ECONNRESET"
             else if (k =? 2)%nat then Ended fresh None
             else Ended fresh (Some header).

(** The clocks of [steady] read otherwise, the header is the same. *)
Definition slow_clock : Network := fun _ _ => Ended late (Some header).

End Scenario.

(* ================================================================= *)
(** ** [cli.js]: the trace of the client *)

(** An object created by [{}] whose properties hold strings: its own
    properties, in the order they were created. *)
Definition JsObject : Type := list (string * string).

(** The own property [k] of [o], [None] when it has none. For a key that
    [Object.prototype] does not define, such as [ip], [loc] and [colo],
    this is [o[k]], with [None] for [undefined]. *)
Fixpoint obj_get (k : string) (o : JsObject) : option string :=
  match o with
  | [] => None
  | (k', v) :: rest => if String.eqb k k' then Some v else obj_get k rest
  end.

(** An own property created or overwritten. *)
Fixpoint obj_put (k v : string) (o : JsObject) : JsObject :=
  match o with
  | [] => [(k, v)]
  | (k', v') :: rest =>
      if String.eqb k k' then (k', v) :: rest else (k', v') :: obj_put k v rest
  end.

(** [o[k] = v] for a string [v]. The key [__proto__] reaches the setter of
    [Object.prototype], which ignores a value that is no object. *)
Definition obj_assign (k v : string) (o : JsObject) : JsObject :=
  if String.eqb k "__proto__" then o else obj_put k v o.

(** [s.split(sep)] for a separator of one character: the pieces between
    the separators, at least one. *)
Fixpoint String_split (sep : ascii) (s : string) : list string :=
  match s with
  | EmptyString => [EmptyString]
  | String c rest =>
      if Ascii.eqb c sep then EmptyString :: String_split sep rest
      else match String_split sep rest with
           | piece :: pieces => String c piece :: pieces
           | [] => [String c EmptyString]
           end
  end.

(** The property key of a string or [undefined]. *)
Definition ToPropertyKey (k : option string) : string :=
  match k with
  | Some s => s
  | None => "undefined"
  end.

Definition line_feed : ascii := "010"%char.

(** The callback of [map] in [parseCfCdnCgiTrace]: [[j[0], j[1]]] of the
    pieces of a line. *)
Definition trace_entry (i : string) : option string * option string :=
  let j := String_split "=" i in
  (nth_error j 0, nth_error j 1).

(** The callback of [reduce] in [parseCfCdnCgiTrace]. *)
Definition trace_reducer (data : JsObject) (kv : option string * option string)
  : JsObject :=
  let '(k, v) := kv in
  match v with
  | None => data
  | Some v => obj_assign (ToPropertyKey k) v data
  end.

(** [parseCfCdnCgiTrace(text)], the function inside
    [fetchCfCdnCgiTrace]. *)
Definition parseCfCdnCgiTrace (text : string) : JsObject :=
  fold_left trace_reducer (map trace_entry (String_split line_feed text)) [].

(* ================================================================= *)
(** ** Vocabulary of the further properties *)

Module Facts.

(** The character [c] does not occur in [s]. *)
Fixpoint free_of (c : ascii) (s : string) : bool :=
  match s with
  | EmptyString => true
  | String c' rest => negb (Ascii.eqb c' c) && free_of c rest
  end.

(** A key the trace can hold: no [=], no line feed, not [__proto__]. *)
Definition trace_key (k : string) : bool :=
  free_of "=" k && free_of line_feed k && negb (String.eqb k "__proto__").

(** The lines [key=value] of the pairs, joined by line feeds. *)
Definition render (kvs : list (string * string)) : string :=
  String.concat (String line_feed EmptyString)
    (map (fun kv => (fst kv ++ "=" ++ snd kv)%string) kvs).

(** What is left of a value: its part before the first [=]. *)
Definition cut (v : string) : string := hd EmptyString (String_split "=" v).

(** What one entry of the trace does to the property [k]: the value it
    assigns, if it assigns one. *)
Definition assigns (k : string) (e : option string * option string) : option string :=
  match snd e with
  | Some v =>
      if String.eqb k (ToPropertyKey (fst e))
         && negb (String.eqb (ToPropertyKey (fst e)) "__proto__")
      then Some v else None
  | None => None
  end.

(** A number in a header ends where [rest] starts: at the end, or at a
    character that continues no decimal literal. *)
Definition ends_number (rest : string) : bool :=
  match rest with
  | EmptyString => true
  | String c _ =>
      negb (is_digit c || Ascii.eqb c "." || Ascii.eqb c "e" || Ascii.eqb c "E")
  end.

(** The value of the digits of [d] read after [acc]. *)
Fixpoint digits_value (acc : N) (d : Decimal.uint) : N :=
  match d with
  | Decimal.Nil => acc
  | Decimal.D0 r => digits_value (10 * acc + 0)%N r
  | Decimal.D1 r => digits_value (10 * acc + 1)%N r
  | Decimal.D2 r => digits_value (10 * acc + 2)%N r
  | Decimal.D3 r => digits_value (10 * acc + 3)%N r
  | Decimal.D4 r => digits_value (10 * acc + 4)%N r
  | Decimal.D5 r => digits_value (10 * acc + 5)%N r
  | Decimal.D6 r => digits_value (10 * acc + 6)%N r
  | Decimal.D7 r => digits_value (10 * acc + 7)%N r
  | Decimal.D8 r => digits_value (10 * acc + 8)%N r
  | Decimal.D9 r => digits_value (10 * acc + 9)%N r
  end.

(** The request of a probe: to the fixed host, a GET of [/__down] with a
    byte count and no body, or a POST of [/__up] with a body of zeros and
    its length as [Content-Length]. *)
Definition probe_shaped (out : Outgoing) : Prop :=
  exists bytes : N,
    out = Spec.download_request bytes \/ out = Spec.upload_request bytes.

(** Run from any world, [m] writes at most [bound] further requests, each
    the request of a probe. *)
Definition writes_probes {A} (bound : nat) (m : Async A) : Prop :=
  forall w : World,
    exists l : list Outgoing,
      sent (snd (m w)) = sent w ++ l
      /\ Forall probe_shaped l
      /\ (List.length l <= bound)%nat.

(** The line on the console for each cause of failure. *)
Definition failures (causes : list string) : list ConsoleLine :=
  map (fun cause => LogError (NetworkError cause)) causes.

(** What a stage reads of an exchange is the same in [x] and [y]: the
    failure, or else for the latency [started], [ttfb] and the header; for
    a download [ttfb] and [ended] (and that a header is there); for an
    upload the header alone. *)
Definition reads_alike (s : Spec.Stage) (x y : Exchange) : Prop :=
  match x, y with
  | Errored c, Errored c' => c = c'
  | Ended t h, Ended t' h' =>
      match s with
      | Spec.Latency =>
          at_request t = at_request t' /\ at_readable t = at_readable t' /\ h = h'
      | Spec.Download _ =>
          at_readable t = at_readable t' /\ at_end t = at_end t'
          /\ (h = None <-> h' = None)
      | Spec.Upload _ =>
          match h, h' with
          | Some a, Some a' => parseFloat (slice 22 a) = parseFloat (slice 22 a')
          | None, None => True
          | _, _ => False
          end
      end
  | _, _ => False
  end.

End Facts.

(* ================================================================= *)
(** ** Checks of the built-ins and of the statistics module *)

(** The header the service sends carries its number at offset 22. *)
Example parseFloat_header :
  slice 22 Scenario.header = "15.000029"
  /\ parseFloat (slice 22 Scenario.header) = parseFloat "15.000029"
  /\ (parseFloat "15.000029" <? 15.125)%float = true
  /\ (15 <? parseFloat "15.000029")%float = true.
Proof. repeat split; reflexivity. Qed.

Example parseFloat_literals :
  parseFloat "12.5" = 12.5%float
  /\ parseFloat "  -3.25e2ms" = (-325)%float
  /\ parseFloat ".5" = 0.5%float
  /\ parseFloat "1e400" = infinity
  /\ parseFloat "-Infinity" = neg_infinity
  /\ parseFloat "0.9" = nine_tenths
  /\ parseFloat "9007199254740993" = 9007199254740992%float.
Proof. repeat split; reflexivity. Qed.

(** Leading white space is skipped, the no-break space included. *)
Example parseFloat_leading_space :
  parseFloat (String (ascii_of_nat 160) "15") = 15%float
  /\ parseFloat (String (ascii_of_nat 9) " 15") = 15%float.
Proof. split; reflexivity. Qed.

Example parseFloat_not_a_number :
  parseFloat "" = nan
  /\ parseFloat "." = nan
  /\ parseFloat "dur=15" = nan
  /\ parseFloat (slice 22 Scenario.cache_first) = nan.
Proof. repeat split; reflexivity. Qed.

Example Math_min_max :
  Math_min [] = infinity
  /\ Math_max [] = neg_infinity
  /\ Math_min [3; 1; 2]%float = 1%float
  /\ Math_max [3; 1; 2]%float = 3%float
  /\ Math_max [3; nan; 2]%float = nan.
Proof. repeat split; reflexivity. Qed.

(** The values section 8 of the specification gives for the statistics
    module. *)
Example stats_testable_properties :
  stats.median [1; 2; 3; 4; 5]%float = Normal 3%float
  /\ stats.median [1; 2; 3; 4]%float = Normal 2.5%float
  /\ stats.quartile [1; 2; 3; 4; 5]%float nine_tenths = Normal (parseFloat "4.6")
  /\ stats.average [10; 20; 30]%float = Normal 20%float
  /\ stats.quartile [3; 1; 2]%float 0 = Normal 1%float
  /\ stats.quartile [3; 1; 2]%float 1 = Normal 3%float
  /\ stats.average [] = Throw InvalidInput
  /\ stats.median [] = Throw InvalidInput
  /\ stats.quartile [] nine_tenths = Throw InvalidInput.
Proof. repeat split; reflexivity. Qed.

(* ================================================================= *)
(** ** Numbers *)

Lemma Prim2SF_nan : Prim2SF nan = S754_nan.
Proof. reflexivity. Qed.

Lemma sub_nan_r (x : float) : (x - nan)%float = nan.
Proof.
  apply Prim2SF_inj. rewrite sub_spec, Prim2SF_nan.
  destruct (Prim2SF x) as [s | s | | s m e]; try destruct s; reflexivity.
Qed.

Lemma div_nan_r (x : float) : (x / nan)%float = nan.
Proof.
  apply Prim2SF_inj. rewrite div_spec, Prim2SF_nan.
  destruct (Prim2SF x) as [s | s | | s m e]; try destruct s; reflexivity.
Qed.

Lemma measureSpeed_nan (bytes : float) : measureSpeed bytes nan = nan.
Proof.
  unfold measureSpeed.
  replace (nan / 1000)%float with nan by reflexivity.
  rewrite div_nan_r. reflexivity.
Qed.

(** Dividing by [+0] gives an infinity or [NaN], whatever is divided. *)
Lemma div_zero_r (x : float) :
  (x / 0)%float = infinity \/ (x / 0)%float = neg_infinity \/ (x / 0)%float = nan.
Proof.
  assert (H : Prim2SF (x / 0)%float = SF64div (Prim2SF x) (S754_zero false))
    by (rewrite div_spec; reflexivity).
  destruct (Prim2SF x) as [s | s | | s m e]; try destruct s; cbn in H;
    apply (f_equal SF2Prim) in H; rewrite SF2Prim_Prim2SF in H; auto.
Qed.

(** Dividing by [-0] likewise. *)
Lemma div_neg_zero_r (x : float) :
  (x / neg_zero)%float = infinity \/ (x / neg_zero)%float = neg_infinity
  \/ (x / neg_zero)%float = nan.
Proof.
  assert (H : Prim2SF (x / neg_zero)%float = SF64div (Prim2SF x) (S754_zero true))
    by (rewrite div_spec; reflexivity).
  destruct (Prim2SF x) as [s | s | | s m e]; try destruct s; cbn in H;
    apply (f_equal SF2Prim) in H; rewrite SF2Prim_Prim2SF in H; auto.
Qed.

(** A Number equal to [0] is [+0] or [-0]. *)
Lemma eqb_zero (x : float) :
  (x =? 0)%float = true -> x = 0%float \/ x = neg_zero.
Proof.
  rewrite eqb_spec. change (Prim2SF 0) with (S754_zero false).
  intro H. rewrite <- (SF2Prim_Prim2SF x).
  destruct (Prim2SF x) as [s | s | | s m e]; try destruct s;
    try discriminate H; auto.
Qed.

(* ================================================================= *)
(** ** Strings *)

Lemma length_String_repeat_0 (n : nat) : String.length (String_repeat "0" n) = n.
Proof. induction n as [|n IH]; simpl; [reflexivity | now rewrite IH]. Qed.

Lemma byteLength_payload (bytes : N) :
  Buffer_byteLength (String_repeat "0" (N.to_nat bytes)) = bytes.
Proof.
  unfold Buffer_byteLength. rewrite length_String_repeat_0. apply N2Nat.id.
Qed.

Lemma to_uint_nonnil (n : N) : N.to_uint n <> Decimal.Nil.
Proof.
  destruct n as [|p]; [discriminate | apply DecimalPos.Unsigned.to_uint_nonnil].
Qed.

Lemma query_bytes_download (bytes : N) :
  Spec.query_bytes ("/__down?bytes=" ++ NumberToString bytes) = Some bytes.
Proof.
  unfold Spec.query_bytes, NumberToString.
  set (digits := NilZero.string_of_uint (N.to_uint bytes)).
  assert (H : prefix "" digits = true) by (destruct digits; reflexivity).
  cbn. rewrite H. cbn. subst digits.
  rewrite NilZero.usu by apply to_uint_nonnil.
  cbn. now rewrite DecimalN.Unsigned.of_to.
Qed.

(* ================================================================= *)
(** ** Loops of probes *)

Lemma exchanges_S (net : Network) (k n : nat) (out : Outgoing) :
  Spec.exchanges net k (S n) out = net k out :: Spec.exchanges net (S k) n out.
Proof.
  unfold Spec.exchanges. cbn [seq map]. rewrite Nat.add_0_r. f_equal.
  rewrite <- seq_shift, map_map. apply map_ext. intro i.
  now rewrite Nat.add_succ_r.
Qed.

Lemma sent_after (w : World) (out : Outgoing) (c : list ConsoleLine) :
  List.length (sent {| sent := sent w ++ [out]; console := c |})
  = S (List.length (sent w)).
Proof. cbn. rewrite length_app. cbn. lia. Qed.

Lemma outgoing_eta (out : Outgoing) :
  {| options := options out; body := body out |} = out.
Proof. now destruct out. Qed.

Section Probes.

Variable net : Network.
Variable out : Outgoing.
Variable f : Response -> float.

(** A probe whose request fails is logged and pushes nothing. *)
Lemma probe_errored (acc : list float) (w : World) (cause : string) :
  net (List.length (sent w)) out = Errored cause ->
  probe net out f acc w = (Fulfilled acc, Spec.after_failure w out cause).
Proof.
  intro E. unfold probe, then2, request. rewrite outgoing_eta, E. reflexivity.
Qed.

(** A probe whose response ends with a timing header pushes its value. *)
Lemma probe_ended (acc : list float) (w : World) (t : Timeline) (h : string) :
  net (List.length (sent w)) out = Ended t (Some h) ->
  probe net out f acc w
  = (Fulfilled (acc ++ [f (Spec.response_of t h)]), Spec.after_request w out).
Proof.
  intro E. unfold probe, then2, request. rewrite outgoing_eta, E. reflexivity.
Qed.

(** A response without the header ends the run. *)
Lemma probe_bare (acc : list float) (w : World) (t : Timeline) :
  net (List.length (sent w)) out = Ended t None ->
  exists e, probe net out f acc w = (Crashed e, Spec.after_request w out).
Proof.
  intro E. unfold probe, then2, request. rewrite outgoing_eta, E. eauto.
Qed.

Lemma probes_spec (n : nat) : forall (acc : list float) (w : World),
  Spec.answered (Spec.exchanges net (List.length (sent w)) n out) ->
  for_ n (probe net out f) acc w
  = (Fulfilled
       (acc ++ map f (Spec.responses
                        (Spec.exchanges net (List.length (sent w)) n out))),
     {| sent := sent w ++ repeat out n;
        console := console w
                     ++ Spec.error_lines
                          (Spec.exchanges net (List.length (sent w)) n out) |}).
Proof.
  induction n as [|n IH]; intros acc w H.
  - destruct w as [s c]. cbn. now rewrite !app_nil_r.
  - rewrite exchanges_S in *. unfold Spec.answered in H. cbn [forallb] in H.
    apply andb_true_iff in H. destruct H as [H0 H].
    cbn [for_]. unfold bind at 1.
    destruct (net (List.length (sent w)) out) as [cause | t [h|]] eqn:E;
      [ rewrite (probe_errored _ _ _ E)
      | rewrite (probe_ended _ _ _ _ E)
      | discriminate H0 ];
      rewrite IH by (unfold Spec.after_failure, Spec.after_request;
                     rewrite sent_after; exact H);
      unfold Spec.after_failure, Spec.after_request; rewrite sent_after;
      cbn; rewrite <- !app_assoc; reflexivity.
Qed.

End Probes.

Lemma upload_is_request (net : Network) (bytes : N) :
  upload net bytes
  = request net (options (Spec.upload_request bytes)) (body (Spec.upload_request bytes)).
Proof. unfold upload. cbn. now rewrite byteLength_payload. Qed.

(** Each loop of [cli.js] is the shared loop at its request and value. *)
Lemma loop_of_eq (net : Network) (s : Spec.Stage) (n : nat) :
  loop_of net s n = for_ n (probe net (Spec.request_of s) (Spec.sample_of s)).
Proof.
  destruct s as [|bytes|bytes]; cbn [loop_of]; try reflexivity.
  unfold uploadLoop. now rewrite upload_is_request.
Qed.

Lemma loop_of_spec (net : Network) (s : Spec.Stage) (n : nat)
    (acc : list float) (w : World) :
  Spec.answered (Spec.exchanges net (List.length (sent w)) n (Spec.request_of s)) ->
  loop_of net s n acc w
  = (Fulfilled
       (acc ++ map (Spec.sample_of s)
                 (Spec.responses
                    (Spec.exchanges net (List.length (sent w)) n (Spec.request_of s)))),
     {| sent := sent w ++ repeat (Spec.request_of s) n;
        console := console w
                     ++ Spec.error_lines
                          (Spec.exchanges net (List.length (sent w)) n
                             (Spec.request_of s)) |}).
Proof. intro H. rewrite loop_of_eq. now apply probes_spec. Qed.

(* ================================================================= *)
(** ** The throughput calculator *)

(** C1. For all [bytes] and [durationMs], [measureSpeed] returns
    [(bytes * 8) / (durationMs / 1000) / 1_000_000], the specification's
    [throughputMbps]; for 1,000,000 bytes in 1000 ms it returns exactly
    [8]. *)
Theorem measureSpeed_is_throughputMbps :
  (forall bytes durationMs : float,
     measureSpeed bytes durationMs = Spec.throughputMbps bytes durationMs)
  /\ measureSpeed 1000000 1000 = 8%float.
Proof.
  split.
  - intros bytes durationMs. reflexivity.
  - reflexivity.
Qed.

(** The two rates of the specification's download scenario: 11000 bytes in
    50 ms and 101000 bytes in 80 ms. *)
Example measureSpeed_scenario :
  measureSpeed (Num 11000) 50 = parseFloat "1.76"
  /\ measureSpeed (Num 101000) 80 = parseFloat "10.1".
Proof. split; reflexivity. Qed.

(** C5, as stated, fails: with a duration of [0] the call returns
    [+Infinity]. A download whose body is complete when the response
    becomes readable has [ended - ttfb = 0], and the stage keeps the
    infinite rates as samples. *)
Lemma measureSpeed_zero_duration_returns :
  measureSpeed 1000000 0 = infinity
  /\ fst (measureDownload Scenario.immediate 11000 2 Scenario.start)
     = Fulfilled [infinity; infinity].
Proof. split; reflexivity. Qed.

(** C5, amended. [measureSpeed] with a duration equal to [0], which is
    [+0] or [-0], does not fail: the division is carried out and the result
    is [+Infinity], [-Infinity] or [NaN], never a finite rate; for every
    payload size of the test plan it is [+Infinity] at [+0] and
    [-Infinity] at [-0]. *)
Theorem measureSpeed_zero_duration :
  (forall bytes duration : float,
     (duration =? 0)%float = true ->
     (duration = 0%float \/ duration = neg_zero)
     /\ (measureSpeed bytes duration = infinity
         \/ measureSpeed bytes duration = neg_infinity
         \/ measureSpeed bytes duration = nan))
  /\ Forall (fun e =>
               measureSpeed (Num (Spec.payload (fst e))) 0 = infinity
               /\ measureSpeed (Num (Spec.payload (fst e))) neg_zero = neg_infinity)
       ((Spec.Latency, 20%nat) :: Spec.download_plan ++ Spec.upload_plan).
Proof.
  split.
  - intros bytes duration Z. apply eqb_zero in Z. split; [exact Z|].
    unfold measureSpeed. destruct Z as [-> | ->].
    + replace (0 / 1000)%float with 0%float by reflexivity.
      destruct (div_zero_r (bytes * 8)) as [E | [E | E]]; rewrite E; auto.
    + replace (neg_zero / 1000)%float with neg_zero by reflexivity.
      destruct (div_neg_zero_r (bytes * 8)) as [E | [E | E]]; rewrite E; auto.
  - repeat constructor.
Qed.

(** The theorem at a million bytes and a duration of [-0], which an upload
    meets when the timing header reads [dur=-0]. *)
Lemma measureSpeed_zero_duration_neg_zero :
  (neg_zero = 0%float \/ neg_zero = neg_zero)
  /\ (measureSpeed 1000000 neg_zero = infinity
      \/ measureSpeed 1000000 neg_zero = neg_infinity
      \/ measureSpeed 1000000 neg_zero = nan).
Proof.
  apply (proj1 measureSpeed_zero_duration 1000000%float neg_zero). reflexivity.
Defined.

(* ================================================================= *)
(** ** The requests of a probe *)

(** C9. For every payload size that a Number holds exactly, a whole
    number of bytes up to [2 ^ 53], [download] writes one GET whose target
    carries the size as the query parameter [bytes], and [upload] writes
    one POST whose body is exactly that many bytes, with a [Content-Length]
    header equal to the size of the body. *)
Theorem probe_requests (net : Network) (bytes : N) (w : World) :
  (bytes <= 2 ^ 53)%N ->
  (exists get : Outgoing,
      sent (snd (download net bytes w)) = sent w ++ [get]
      /\ method (options get) = "GET"
      /\ Spec.query_bytes (path (options get)) = Some bytes)
  /\ (exists post : Outgoing,
      sent (snd (upload net bytes w)) = sent w ++ [post]
      /\ method (options post) = "POST"
      /\ Buffer_byteLength (body post) = bytes
      /\ headers (options post)
         = [("Content-Length", Buffer_byteLength (body post))]).
Proof.
  intros _. split.
  - exists (Spec.download_request bytes). split; [|split].
    + unfold download, request.
      destruct (net _ _) as [cause | t [h|]]; reflexivity.
    + reflexivity.
    + apply query_bytes_download.
  - exists (Spec.upload_request bytes). split; [|split; [|split]].
    + rewrite upload_is_request. unfold request.
      destruct (net _ _) as [cause | t [h|]]; reflexivity.
    + reflexivity.
    + apply byteLength_payload.
    + cbn [Spec.upload_request options headers body].
      now rewrite byteLength_payload.
Qed.

(** The theorem at the smallest size of the plan. *)
Lemma probe_requests_11000 :
  (exists get : Outgoing,
      sent (snd (download Scenario.steady 11000 Scenario.start)) = [get]
      /\ method (options get) = "GET"
      /\ Spec.query_bytes (path (options get)) = Some 11000%N)
  /\ (exists post : Outgoing,
      sent (snd (upload Scenario.steady 11000 Scenario.start)) = [post]
      /\ method (options post) = "POST"
      /\ Buffer_byteLength (body post) = 11000%N
      /\ headers (options post)
         = [("Content-Length", Buffer_byteLength (body post))]).
Proof.
  apply (probe_requests Scenario.steady 11000 Scenario.start). now vm_compute.
Defined.

(* ================================================================= *)
(** ** The latency stage *)

(** C2. When every response carries its timing header, [measureLatency]
    writes exactly twenty download requests of 1000 bytes, takes
    [ttfb - started - serverTiming] of each probe that succeeded, and
    reports the minimum, maximum, average and median of these values. *)
Theorem measureLatency_spec (net : Network) (w : World) :
  Spec.answered
    (Spec.exchanges net (List.length (sent w)) 20 (Spec.download_request 1000)) ->
  (forall r,
     Spec.sample_of Spec.Latency r
     = (ToNumber (ttfb r) - started r - serverTiming r)%float)
  /\ measureLatency net w
  = (Spec.latency_report
       (map (Spec.sample_of Spec.Latency)
          (Spec.responses
             (Spec.exchanges net (List.length (sent w)) 20
                (Spec.download_request 1000)))),
     {| sent := sent w ++ repeat (Spec.download_request 1000) 20;
        console := console w
                     ++ Spec.error_lines
                          (Spec.exchanges net (List.length (sent w)) 20
                             (Spec.download_request 1000)) |}).
Proof.
  intro H. split; [reflexivity|]. unfold measureLatency, bind.
  change (latencyLoop net 20) with (loop_of net Spec.Latency 20).
  rewrite (loop_of_spec net Spec.Latency 20 [] w H). cbn [app].
  unfold Spec.latency_report, call.
  destruct (stats.average _); [destruct (stats.median _)|]; reflexivity.
Qed.

(** The theorem at a network that answers every request alike. *)
Lemma measureLatency_spec_steady :
  (forall r,
     Spec.sample_of Spec.Latency r
     = (ToNumber (ttfb r) - started r - serverTiming r)%float)
  /\ measureLatency Scenario.steady Scenario.start
  = (Spec.latency_report
       (map (Spec.sample_of Spec.Latency)
          (Spec.responses
             (Spec.exchanges Scenario.steady 0 20 (Spec.download_request 1000)))),
     {| sent := repeat (Spec.download_request 1000) 20;
        console := Spec.error_lines
                     (Spec.exchanges Scenario.steady 0 20
                        (Spec.download_request 1000)) |}).
Proof.
  apply (measureLatency_spec Scenario.steady Scenario.start). reflexivity.
Defined.

(** Section 8 of the specification: with one probe of 200 ms among twenty
    of 15 ms the median stays at 15 ms, the maximum is 200 ms and the
    average moves up. *)
Example measureLatency_outlier :
  fst (measureLatency Scenario.outlier Scenario.start)
  = Fulfilled (15, 200, 24.25, 15)%float.
Proof. reflexivity. Qed.

(* ================================================================= *)
(** ** Failed probes *)



(* ================================================================= *)
(** ** The timing header *)

(** A response without the [server-timing] header: the ['end'] listener
    throws, and the run ends there with one request written. *)
Remark bare_response_ends_the_run (net : Network) (s : Spec.Stage) (n : nat)
    (acc : list float) (w : World) (t : Timeline) :
  net (List.length (sent w)) (Spec.request_of s) = Ended t None ->
  exists e : JsError,
    loop_of net s (S n) acc w
    = (Crashed e, Spec.after_request w (Spec.request_of s)).
Proof.
  intro E. rewrite loop_of_eq. cbn [for_]. unfold bind at 1.
  destruct (probe_bare net (Spec.request_of s) (Spec.sample_of s) acc w t E)
    as [e He].
  exists e. now rewrite He.
Qed.

Example bare_response_crashes :
  measureLatency Scenario.bare Scenario.start
  = (Crashed (TypeError "Cannot read property 'slice' of undefined"),
     {| sent := [Spec.download_request 1000]; console := [] |}).
Proof. reflexivity. Qed.

(** C8, as stated, fails: with a timing header that holds no number at
    offset 22 no probe is skipped and nothing is logged. The twenty latency
    values and the upload rates are [NaN]; the download rates are those of
    the transfer. *)
Lemma garbled_header_is_not_skipped :
  fst (latencyLoop Scenario.garbled 20 [] Scenario.start) = Fulfilled (repeat nan 20)
  /\ console (snd (latencyLoop Scenario.garbled 20 [] Scenario.start)) = []
  /\ fst (measureUpload Scenario.garbled 5 2 Scenario.start) = Fulfilled [nan; nan]
  /\ fst (measureDownload Scenario.garbled 11000 2 Scenario.start)
     = Fulfilled [measureSpeed (Num 11000) 50; measureSpeed (Num 11000) 50].
Proof. repeat split; reflexivity. Qed.

(** C8, amended. A probe whose response carries a timing header with no
    number at offset 22 is not a failed transfer: [parseFloat] gives [NaN],
    nothing is logged, the probe pushes its value ([NaN] in the latency and
    upload stages, the rate over [ended - ttfb] in the download stage) and
    the loop goes on with its remaining iterations. *)
Theorem unparsable_header_is_sampled (net : Network) (s : Spec.Stage) (n : nat)
    (acc : list float) (w : World) (t : Timeline) (header : string) :
  net (List.length (sent w)) (Spec.request_of s) = Ended t (Some header) ->
  parseFloat (slice 22 header) = nan ->
  loop_of net s (S n) acc w
  = loop_of net s n
      (acc ++ [match s with
               | Spec.Download bytes =>
                   measureSpeed (Num bytes) (at_end t - ToNumber (at_readable t))
               | _ => nan
               end])
      (Spec.after_request w (Spec.request_of s)).
Proof.
  intros E P. rewrite !loop_of_eq. cbn [for_]. unfold bind at 1.
  rewrite (probe_ended _ _ _ _ _ t header E). do 3 f_equal.
  destruct s as [|bytes|bytes]; cbn [Spec.sample_of Spec.response_of
    ttfb started ended serverTiming].
  - rewrite P. apply sub_nan_r.
  - reflexivity.
  - rewrite P. apply measureSpeed_nan.
Qed.

(** The theorem at two latency probes whose header lists another metric
    first. *)
Lemma unparsable_header_is_sampled_garbled :
  loop_of Scenario.garbled Spec.Latency 2 [] Scenario.start
  = loop_of Scenario.garbled Spec.Latency 1 [nan]
      (Spec.after_request Scenario.start (Spec.download_request 1000)).
Proof.
  apply (unparsable_header_is_sampled Scenario.garbled Spec.Latency 1 []
           Scenario.start Scenario.fresh Scenario.cache_first); reflexivity.
Defined.

(* ================================================================= *)
(** ** A stage without samples *)

Lemma error_lines_are_errors (xs : list Exchange) :
  exists errors : list JsError, Spec.error_lines xs = map LogError errors.
Proof.
  unfold Spec.error_lines. induction xs as [|x xs [errors IH]].
  - now exists [].
  - destruct x as [cause | t h]; cbn [flat_map app].
    + exists (NetworkError cause :: errors). now rewrite IH.
    + now exists errors.
Qed.

Lemma all_failed (net : Network) (k n : nat) (out : Outgoing) :
  (forall i, Spec.failed (net (k + i)%nat out) = true) ->
  Spec.answered (Spec.exchanges net k n out)
  /\ Spec.responses (Spec.exchanges net k n out) = [].
Proof.
  intro F. unfold Spec.answered, Spec.exchanges.
  induction (seq 0 n) as [|i l [IHa IHr]]; [now split|].
  specialize (F i). cbn.
  destruct (net (k + i)%nat out) as [cause | t h]; [|discriminate F].
  now split.
Qed.

(** A loop whose probes all fail returns its array as it was, with as
    many requests written and only error lines logged. *)
Lemma loop_of_all_failed (net : Network) (s : Spec.Stage) (n : nat) (w : World) :
  (forall i out, Spec.failed (net (List.length (sent w) + i)%nat out) = true) ->
  exists errors : list JsError,
    loop_of net s n [] w
    = (Fulfilled [],
       {| sent := sent w ++ repeat (Spec.request_of s) n;
          console := console w ++ map LogError errors |}).
Proof.
  intro F.
  destruct (all_failed net (List.length (sent w)) n (Spec.request_of s)) as [A R];
    [intro i; apply F|].
  destruct (error_lines_are_errors
              (Spec.exchanges net (List.length (sent w)) n (Spec.request_of s)))
    as [errors E].
  exists errors. rewrite (loop_of_spec net s n [] w A), R, E. reflexivity.
Qed.

(** The same, from a world [w'] reached after [m] further requests that
    logged only errors. *)
Lemma loop_of_all_failed_later (net : Network) (s : Spec.Stage) (n m : nat)
    (w w' : World) (errors : list JsError) :
  (forall i out, Spec.failed (net (List.length (sent w) + i)%nat out) = true) ->
  List.length (sent w') = (List.length (sent w) + m)%nat ->
  console w' = console w ++ map LogError errors ->
  exists (errors' : list JsError) (w'' : World),
    loop_of net s n [] w' = (Fulfilled [], w'')
    /\ List.length (sent w'') = (List.length (sent w) + (m + n))%nat
    /\ console w'' = console w ++ map LogError errors'.
Proof.
  intros F L C.
  destruct (loop_of_all_failed net s n w') as [errors' E].
  { intros i out. rewrite L, <- Nat.add_assoc. apply F. }
  exists (errors ++ errors'). eexists. split; [exact E|]. cbn [sent console]. split.
  - rewrite length_app, repeat_length, L. lia.
  - now rewrite C, <- app_assoc, map_app.
Qed.

(** C7. When every probe of a stage fails, its array of samples is empty
    and the summary over it fails with [InvalidInput]: [measureLatency]
    and each of the three stages reject with it, and the console holds no
    figure, only the lines of the failed probes. *)
Theorem empty_stage_fails (net : Network) (w : World) :
  (forall i out, Spec.failed (net (List.length (sent w) + i)%nat out) = true) ->
  Spec.rejected_without_figure w (measureLatency net w)
  /\ Spec.rejected_without_figure w (latencyStage net w)
  /\ Spec.rejected_without_figure w (downloadStage net w)
  /\ Spec.rejected_without_figure w (uploadStage net w).
Proof.
  intro F.
  assert (L : Spec.rejected_without_figure w (measureLatency net w)).
  { destruct (loop_of_all_failed net Spec.Latency 20 w F) as [errors E].
    unfold measureLatency, bind.
    change (latencyLoop net 20) with (loop_of net Spec.Latency 20).
    rewrite E. split; [reflexivity | now exists errors]. }
  split; [exact L|]. split; [|split].
  - unfold latencyStage, bind. destruct L as [R C].
    destruct (measureLatency net w) as [[ping | e | e] w1]; cbn in R;
      try discriminate R. injection R as ->. split; [reflexivity | exact C].
  - destruct (loop_of_all_failed net (Spec.Download 11000) 10 w F) as [errors E].
    unfold downloadStage, bind at 1.
    change (measureDownload net 11000 10)
      with (loop_of net (Spec.Download 11000) 10 []).
    rewrite E. split; [reflexivity | now exists errors].
  - destruct (loop_of_all_failed net (Spec.Upload 11000) 10 w F) as [e7 E7].
    set (w7 := {| sent := sent w ++ repeat (Spec.request_of (Spec.Upload 11000)) 10;
                  console := console w ++ map LogError e7 |}) in E7.
    assert (L7 : List.length (sent w7) = (List.length (sent w) + 10)%nat)
      by (unfold w7; cbn [sent]; now rewrite length_app, repeat_length).
    destruct (loop_of_all_failed_later net (Spec.Upload 101000) 10 10 w
                w7 e7 F L7 eq_refl) as (e8 & w8 & E8 & L8 & C8).
    destruct (loop_of_all_failed_later net (Spec.Upload 1001000) 8 _ w
                w8 e8 F L8 C8) as (e9 & w9 & E9 & L9 & C9).
    unfold uploadStage, bind.
    change (measureUpload net 11000 10) with (loop_of net (Spec.Upload 11000) 10 []).
    rewrite E7.
    change (measureUpload net 101000 10) with (loop_of net (Spec.Upload 101000) 10 []).
    rewrite E8.
    change (measureUpload net 1001000 8) with (loop_of net (Spec.Upload 1001000) 8 []).
    rewrite E9. split; [reflexivity | now exists e9].
Qed.

(** The theorem at a network where no request gets through. *)
Lemma empty_stage_fails_down :
  Spec.rejected_without_figure Scenario.start (measureLatency Scenario.down Scenario.start)
  /\ Spec.rejected_without_figure Scenario.start (latencyStage Scenario.down Scenario.start)
  /\ Spec.rejected_without_figure Scenario.start (downloadStage Scenario.down Scenario.start)
  /\ Spec.rejected_without_figure Scenario.start (uploadStage Scenario.down Scenario.start).
Proof.
  apply (empty_stage_fails Scenario.down Scenario.start). intros i out. reflexivity.
Defined.

(* ================================================================= *)
(** ** The handshake timestamps *)

Lemma bind_ext {A B} (m m' : Async A) (k k' : A -> Async B) :
  (forall w, m w = m' w) -> (forall a w, k a w = k' a w) ->
  forall w, bind m k w = bind m' k' w.
Proof.
  intros Hm Hk w. unfold bind. rewrite Hm.
  destruct (m' w) as [[a | e | e] w1]; [apply Hk | reflexivity | reflexivity].
Qed.

Lemma for_ext {A} (n : nat) (body body' : A -> Async A) :
  (forall acc w, body acc w = body' acc w) ->
  forall acc w, for_ n body acc w = for_ n body' acc w.
Proof.
  intro H. induction n as [|n IH]; intros acc w; cbn [for_].
  - reflexivity.
  - apply bind_ext; [apply H | exact IH].
Qed.

(** The value of a stage reads [response[0]], [response[4]], [response[5]]
    and [response[6]] only. *)
Lemma sample_of_reads (s : Spec.Stage) (r r' : Response) :
  started r = started r' -> ttfb r = ttfb r' -> ended r = ended r' ->
  serverTiming r = serverTiming r' ->
  Spec.sample_of s r = Spec.sample_of s r'.
Proof.
  intros H0 H4 H5 H6. destruct s; cbn [Spec.sample_of];
    now rewrite ?H0, ?H4, ?H5, ?H6.
Qed.

Lemma loop_of_handshake (net net' : Network) (s : Spec.Stage) (n : nat) :
  (forall k out, Spec.same_but_handshake (net k out) (net' k out)) ->
  forall acc w, loop_of net s n acc w = loop_of net' s n acc w.
Proof.
  intro H. rewrite !loop_of_eq. apply for_ext. intros acc w.
  unfold probe, then2, request. rewrite outgoing_eta.
  specialize (H (List.length (sent w)) (Spec.request_of s)).
  destruct (net _ _) as [c | t h], (net' _ _) as [c' | t' h']; cbn in H;
    try contradiction.
  - now subst c'.
  - destruct H as (H0 & H4 & H5 & <-). destruct h as [header|]; [|reflexivity].
    unfold ret. do 4 f_equal. apply sample_of_reads; cbn; congruence.
Qed.

(** C10. Two networks whose answers differ at most in the clock readings
    of [lookup], [connect] and [secureConnect] give the same latency
    values, the same download and upload rates, and the same three stages:
    results, requests and console alike. *)
Theorem handshake_timestamps_are_not_read (net net' : Network) :
  (forall k out, Spec.same_but_handshake (net k out) (net' k out)) ->
  forall w : World,
    measureLatency net w = measureLatency net' w
    /\ (forall bytes iterations,
          measureDownload net bytes iterations w
          = measureDownload net' bytes iterations w)
    /\ (forall bytes iterations,
          measureUpload net bytes iterations w
          = measureUpload net' bytes iterations w)
    /\ latencyStage net w = latencyStage net' w
    /\ downloadStage net w = downloadStage net' w
    /\ uploadStage net w = uploadStage net' w.
Proof.
  intro H.
  assert (HL : forall w, measureLatency net w = measureLatency net' w).
  { intro w. unfold measureLatency. apply bind_ext; [|reflexivity].
    exact (loop_of_handshake net net' Spec.Latency 20 H []). }
  assert (HD : forall bytes n w,
             measureDownload net bytes n w = measureDownload net' bytes n w).
  { intros bytes n. exact (loop_of_handshake net net' (Spec.Download bytes) n H []). }
  assert (HU : forall bytes n w,
             measureUpload net bytes n w = measureUpload net' bytes n w).
  { intros bytes n. exact (loop_of_handshake net net' (Spec.Upload bytes) n H []). }
  intro w. repeat split.
  - apply HL.
  - intros. apply HD.
  - intros. apply HU.
  - unfold latencyStage. apply bind_ext; [exact HL | reflexivity].
  - unfold downloadStage.
    repeat (apply bind_ext; [first [apply HD | reflexivity] | intros ? ?]).
    reflexivity.
  - unfold uploadStage.
    repeat (apply bind_ext; [first [apply HU | reflexivity] | intros ? ?]).
    reflexivity.
Qed.

(** The theorem at a fresh connection and at a reused one. *)
Lemma handshake_timestamps_are_not_read_pooled :
  measureLatency Scenario.steady Scenario.start
  = measureLatency Scenario.pooled Scenario.start
  /\ (forall bytes iterations,
        measureDownload Scenario.steady bytes iterations Scenario.start
        = measureDownload Scenario.pooled bytes iterations Scenario.start)
  /\ (forall bytes iterations,
        measureUpload Scenario.steady bytes iterations Scenario.start
        = measureUpload Scenario.pooled bytes iterations Scenario.start)
  /\ latencyStage Scenario.steady Scenario.start
     = latencyStage Scenario.pooled Scenario.start
  /\ downloadStage Scenario.steady Scenario.start
     = downloadStage Scenario.pooled Scenario.start
  /\ uploadStage Scenario.steady Scenario.start
     = uploadStage Scenario.pooled Scenario.start.
Proof.
  apply (handshake_timestamps_are_not_read Scenario.steady Scenario.pooled).
  intros k out. cbn. repeat split.
Defined.

(* ================================================================= *)
(** ** The download and upload stages *)

Lemma median_defined (xs : list float) :
  xs <> [] -> exists m : float, stats.median xs = Normal m.
Proof.
  destruct xs as [|x xs]; [contradiction|]. intros _. unfold stats.median.
  destruct (Nat.odd _); eexists; reflexivity.
Qed.

Lemma quartile_defined (xs : list float) (q : float) :
  xs <> [] -> exists v : float, stats.quartile xs q = Normal v.
Proof.
  destruct xs as [|x xs]; [contradiction|]. intros _. unfold stats.quartile.
  destruct (_ =? _)%float; eexists; reflexivity.
Qed.

(** One entry of a plan: the loop of the stage from request number [k],
    then the rest [K] of the [async] function. *)
Lemma plan_step {B} (net : Network) (s : Spec.Stage) (n k : nat) (w : World)
    (K : list float -> Async B) (R : Settled B * World) :
  List.length (sent w) = k ->
  Spec.answered (Spec.exchanges net k n (Spec.request_of s)) ->
  K (map (Spec.sample_of s)
       (Spec.responses (Spec.exchanges net k n (Spec.request_of s))))
    {| sent := sent w ++ repeat (Spec.request_of s) n;
       console := console w
                    ++ Spec.error_lines
                         (Spec.exchanges net k n (Spec.request_of s)) |}
  = R ->
  bind (loop_of net s n []) K w = R.
Proof.
  intros <- A <-. unfold bind. now rewrite (loop_of_spec net s n [] w A).
Qed.

(** [logSpeedTestResult] over samples that have a median. *)
Lemma log_step {B} (label : string) (test : list float) (m : float) (w : World)
    (K : Async B) (R : Settled B * World) :
  stats.median test = Normal m ->
  K {| sent := sent w;
       console := console w ++ [LogFixed (label ++ " speed") m "Mbps"] |} = R ->
  bind (logSpeedTestResult label test) (fun _ => K) w = R.
Proof.
  intros M <-. unfold logSpeedTestResult, bind, call. now rewrite M.
Qed.

(** The headline figure over samples that have a quantile. *)
Lemma headline_step (label : string) (samples : list float) (v : float) (w : World) :
  stats.quartile samples nine_tenths = Normal v ->
  bind (call (stats.quartile samples nine_tenths))
    (fun speed => console_log (LogFixed label speed "Mbps")) w
  = (Fulfilled tt,
     {| sent := sent w; console := console w ++ [LogFixed label v "Mbps"] |}).
Proof. intro Q. unfold bind, call. now rewrite Q. Qed.

(** C3. When every response carries its timing header and every size has
    a probe that succeeded, the download stage writes the requests of its
    plan, six sizes in ascending order with their iteration counts; takes
    for each successful probe the rate [throughputMbps(size, ended - ttfb)];
    prints the median of each size; and prints as [Download speed] the
    quantile [0.9] of the six arrays of rates put end to end. *)
Theorem downloadStage_spec (net : Network) (w : World) :
  Forall (fun r => Spec.answered (fst r) /\ snd r <> [])
    (Spec.run_plan net (List.length (sent w)) Spec.download_plan) ->
  StronglySorted N.lt (map (fun e => Spec.payload (fst e)) Spec.download_plan)
  /\ (forall bytes r,
        Spec.sample_of (Spec.Download bytes) r
        = measureSpeed (Num bytes) (ended r - ToNumber (ttfb r)))
  /\ exists (medians : list float) (headline : float),
       Forall2 (fun r m => stats.median (snd r) = Normal m)
         (Spec.run_plan net (List.length (sent w)) Spec.download_plan) medians
       /\ stats.quartile
            (Spec.all_samples
               (Spec.run_plan net (List.length (sent w)) Spec.download_plan))
            nine_tenths = Normal headline
       /\ downloadStage net w
          = (Fulfilled tt,
             {| sent := sent w ++ Spec.plan_requests Spec.download_plan;
                console := console w
                             ++ Spec.download_console
                                  (Spec.run_plan net (List.length (sent w))
                                     Spec.download_plan)
                                  medians headline |}).
Proof.
  intro H. split.
  { cbn. repeat (constructor; [|repeat constructor; reflexivity]). constructor. }
  split; [reflexivity|].
  set (k := List.length (sent w)) in *.
  cbn [Spec.run_plan Spec.download_plan] in *.
  rewrite !Forall_cons_iff in H. cbn [fst snd] in H.
  destruct H as ((A1 & N1) & (A2 & N2) & (A3 & N3) & (A4 & N4) & (A5 & N5)
                 & (A6 & N6) & _).
  destruct (median_defined _ N1) as [m1 M1].
  destruct (median_defined _ N2) as [m2 M2].
  destruct (median_defined _ N3) as [m3 M3].
  destruct (median_defined _ N4) as [m4 M4].
  destruct (median_defined _ N5) as [m5 M5].
  destruct (median_defined _ N6) as [m6 M6].
  unfold Spec.all_samples. cbn [map snd List.concat].
  match goal with
  | |- context [stats.quartile ?xs nine_tenths] =>
      destruct (quartile_defined xs nine_tenths) as [q Q]
  end.
  { intro E. apply app_eq_nil in E. destruct E as [E _]. exact (N1 E). }
  exists [m1; m2; m3; m4; m5; m6], q.
  split; [repeat constructor; assumption|]. split; [exact Q|].
  unfold downloadStage.
  apply (plan_step net (Spec.Download 11000) 10 k); [reflexivity | exact A1 |].
  apply (log_step _ _ m1); [exact M1|].
  apply (plan_step net (Spec.Download 101000) 10 (k + 10));
    [sent_length | exact A2 |].
  apply (log_step _ _ m2); [exact M2|].
  apply (plan_step net (Spec.Download 1001000) 8 (k + 10 + 10));
    [sent_length | exact A3 |].
  apply (log_step _ _ m3); [exact M3|].
  apply (plan_step net (Spec.Download 10001000) 5 (k + 10 + 10 + 8));
    [sent_length | exact A4 |].
  apply (log_step _ _ m4); [exact M4|].
  apply (plan_step net (Spec.Download 25001000) 5 (k + 10 + 10 + 8 + 5));
    [sent_length | exact A5 |].
  apply (log_step _ _ m5); [exact M5|].
  apply (plan_step net (Spec.Download 100001000) 5 (k + 10 + 10 + 8 + 5 + 5));
    [sent_length | exact A6 |].
  apply (log_step _ _ m6); [exact M6|].
  rewrite app_nil_r in Q. rewrite (headline_step _ _ q _ Q).
  cbn [sent console]. unfold Spec.plan_requests, Spec.download_console.
  cbn [flat_map Spec.download_plan Spec.size_lines Spec.download_labels].
  rewrite app_nil_r.
  repeat first [rewrite <- !app_assoc | progress cbn [app]]. reflexivity.
Qed.

(** The theorem at a network that resets every third request. *)
Lemma downloadStage_spec_flaky :
  StronglySorted N.lt (map (fun e => Spec.payload (fst e)) Spec.download_plan)
  /\ (forall bytes r,
        Spec.sample_of (Spec.Download bytes) r
        = measureSpeed (Num bytes) (ended r - ToNumber (ttfb r)))
  /\ exists (medians : list float) (headline : float),
       Forall2 (fun r m => stats.median (snd r) = Normal m)
         (Spec.run_plan Scenario.flaky 0 Spec.download_plan) medians
       /\ stats.quartile
            (Spec.all_samples (Spec.run_plan Scenario.flaky 0 Spec.download_plan))
            nine_tenths = Normal headline
       /\ downloadStage Scenario.flaky Scenario.start
          = (Fulfilled tt,
             {| sent := Spec.plan_requests Spec.download_plan;
                console := Spec.download_console
                             (Spec.run_plan Scenario.flaky 0 Spec.download_plan)
                             medians headline |}).
Proof.
  apply (downloadStage_spec Scenario.flaky Scenario.start).
  repeat constructor; vm_compute; discriminate.
Defined.

(** C4. When every response carries its timing header and some probe
    succeeded, the upload stage writes the requests of its plan, takes for
    each successful probe the rate
    [throughputMbps(size, serverProcessingTimeMs)] over the duration the
    server reports, and prints as [Upload speed] the quantile [0.9] of all
    the rates of the stage. *)
Theorem uploadStage_spec (net : Network) (w : World) :
  Forall (fun r => Spec.answered (fst r))
    (Spec.run_plan net (List.length (sent w)) Spec.upload_plan) ->
  Spec.all_samples (Spec.run_plan net (List.length (sent w)) Spec.upload_plan) <> [] ->
  (forall bytes r,
     Spec.sample_of (Spec.Upload bytes) r
     = measureSpeed (Num bytes) (serverTiming r))
  /\ exists headline : float,
       stats.quartile
         (Spec.all_samples
            (Spec.run_plan net (List.length (sent w)) Spec.upload_plan))
         nine_tenths = Normal headline
       /\ uploadStage net w
          = (Fulfilled tt,
             {| sent := sent w ++ Spec.plan_requests Spec.upload_plan;
                console := console w
                             ++ Spec.upload_console
                                  (Spec.run_plan net (List.length (sent w))
                                     Spec.upload_plan)
                                  headline |}).
Proof.
  intros H N. split; [reflexivity|].
  destruct (quartile_defined _ nine_tenths N) as [q Q]. exists q.
  split; [exact Q|].
  set (k := List.length (sent w)) in *.
  unfold Spec.all_samples in Q.
  cbn [Spec.run_plan Spec.upload_plan map snd fst List.concat] in *.
  rewrite !Forall_cons_iff in H. cbn [fst] in H.
  destruct H as (A7 & A8 & A9 & _).
  unfold uploadStage.
  apply (plan_step net (Spec.Upload 11000) 10 k); [reflexivity | exact A7 |].
  apply (plan_step net (Spec.Upload 101000) 10 (k + 10));
    [sent_length | exact A8 |].
  apply (plan_step net (Spec.Upload 1001000) 8 (k + 10 + 10));
    [sent_length | exact A9 |].
  rewrite app_nil_r in Q. rewrite (headline_step _ _ q _ Q).
  cbn [sent console]. unfold Spec.plan_requests, Spec.upload_console.
  cbn [flat_map Spec.upload_plan fst].
  rewrite !app_nil_r.
  repeat first [rewrite <- !app_assoc | progress cbn [app]]. reflexivity.
Qed.

(** The theorem at a network that resets every third request. *)
Lemma uploadStage_spec_flaky :
  (forall bytes r,
     Spec.sample_of (Spec.Upload bytes) r
     = measureSpeed (Num bytes) (serverTiming r))
  /\ exists headline : float,
       stats.quartile
         (Spec.all_samples (Spec.run_plan Scenario.flaky 0 Spec.upload_plan))
         nine_tenths = Normal headline
       /\ uploadStage Scenario.flaky Scenario.start
          = (Fulfilled tt,
             {| sent := Spec.plan_requests Spec.upload_plan;
                console := Spec.upload_console
                             (Spec.run_plan Scenario.flaky 0 Spec.upload_plan)
                             headline |}).
Proof.
  apply (uploadStage_spec Scenario.flaky Scenario.start).
  - repeat constructor.
  - lazy. discriminate.
Defined.

(* ================================================================= *)
(** ** The trace of the client *)

(** A trace as the service sends it, with a line feed at its end. *)
Example parseCfCdnCgiTrace_fields :
  let data := parseCfCdnCgiTrace
                ("fl=1f1" ++ String line_feed
                   ("ip=192.0.2.1" ++ String line_feed
                      ("uag=curl/8.5 a=b" ++ String line_feed
                         ("colo=FRA" ++ String line_feed
                            ("loc=DE" ++ String line_feed "")))))%string in
  obj_get "ip" data = Some "192.0.2.1"
  /\ obj_get "loc" data = Some "DE"
  /\ obj_get "colo" data = Some "FRA"
  /\ obj_get "uag" data = Some "curl/8.5 a"
  /\ obj_get "warp" data = None.
Proof. repeat split; reflexivity. Qed.

Lemma split_cons (c : ascii) (s : string) :
  exists piece pieces, String_split c s = piece :: pieces.
Proof.
  induction s as [|a s (p & ps & IH)]; cbn.
  - now exists EmptyString, [].
  - destruct (Ascii.eqb a c); [now eexists; eexists|].
    rewrite IH. now eexists; eexists.
Qed.

Lemma split_app (c : ascii) (a b : string) :
  String_split c (a ++ String c b)%string = String_split c a ++ String_split c b.
Proof.
  induction a as [|x a IH]; cbn.
  - now rewrite Ascii.eqb_refl.
  - destruct (Ascii.eqb x c); [now rewrite IH|].
    rewrite IH. destruct (split_cons c a) as (p & ps & E). now rewrite E.
Qed.

Lemma split_free (c : ascii) (s : string) :
  Facts.free_of c s = true -> String_split c s = [s].
Proof.
  induction s as [|a s IH]; cbn; [reflexivity|].
  intro H. apply andb_true_iff in H. destruct H as [H1 H2].
  apply negb_true_iff in H1. rewrite H1, (IH H2). reflexivity.
Qed.

Lemma free_of_app (c : ascii) (a b : string) :
  Facts.free_of c (a ++ b)%string = Facts.free_of c a && Facts.free_of c b.
Proof.
  induction a as [|x a IH]; cbn; [reflexivity|]. now rewrite IH, andb_assoc.
Qed.

(** A string is free of [c], or it has a first [c]. *)
Lemma first_separator (c : ascii) (s : string) :
  Facts.free_of c s = true
  \/ exists head rest,
       s = (head ++ String c rest)%string /\ Facts.free_of c head = true.
Proof.
  induction s as [|a s IH]; [now left|]. cbn.
  destruct (Ascii.eqb a c) eqn:E.
  - right. apply Ascii.eqb_eq in E. subst a. now exists EmptyString, s.
  - destruct IH as [F | (h & r & -> & F)].
    + left. now rewrite F.
    + right. exists (String a h), r. cbn. now rewrite E, F.
Qed.

(** The part before the first [c] is determined. *)
Lemma first_separator_unique (c : ascii) (h h' r r' : string) :
  Facts.free_of c h = true -> Facts.free_of c h' = true ->
  (h ++ String c r)%string = (h' ++ String c r')%string -> h = h' /\ r = r'.
Proof.
  revert h'. induction h as [|a h IH]; intros [|a' h'] F F' E; cbn in *.
  - now injection E.
  - injection E as <- _. now rewrite Ascii.eqb_refl in F'.
  - injection E as -> _. now rewrite Ascii.eqb_refl in F.
  - injection E as <- E. apply andb_true_iff in F, F'.
    destruct (IH h' (proj2 F) (proj2 F') E) as [-> ->]. now split.
Qed.

(** The pieces of a split hold no separator, and no character the whole
    string is free of. *)
Lemma split_pieces_free (c : ascii) (s : string) :
  Forall (fun p => Facts.free_of c p = true) (String_split c s).
Proof.
  induction s as [|a s IH]; cbn; [now repeat constructor|].
  destruct (Ascii.eqb a c) eqn:E; [now constructor|].
  destruct (String_split c s) as [|p ps]; [now repeat constructor; cbn; rewrite E|].
  inversion IH as [|? ? Hp Hps]; subst. constructor; [|exact Hps].
  cbn. now rewrite E, Hp.
Qed.

Lemma split_pieces_keep_free (c d : ascii) (s : string) :
  Facts.free_of d s = true ->
  Forall (fun p => Facts.free_of d p = true) (String_split c s).
Proof.
  induction s as [|a s IH]; cbn; [now repeat constructor|].
  intro F. apply andb_true_iff in F. destruct F as [F1 F2]. specialize (IH F2).
  destruct (Ascii.eqb a c); [now constructor|].
  destruct (String_split c s) as [|p ps]; [now repeat constructor; cbn; rewrite F1|].
  inversion IH as [|? ? Hp Hps]; subst. constructor; [|exact Hps].
  cbn. now rewrite F1, Hp.
Qed.

(** What [map]'s callback makes of a line: a line without [=] has no
    value; otherwise the key is what stands before the first [=] and the
    value what stands between the first and the second. *)
Lemma trace_entry_plain (line : string) :
  Facts.free_of "=" line = true -> trace_entry line = (Some line, None).
Proof. intro F. unfold trace_entry. now rewrite (split_free _ _ F). Qed.

Lemma trace_entry_assignment (k rest : string) :
  Facts.free_of "=" k = true ->
  trace_entry (k ++ String "=" rest) = (Some k, Some (Facts.cut rest)).
Proof.
  intro F. unfold trace_entry, Facts.cut.
  rewrite split_app, (split_free _ _ F).
  destruct (split_cons "=" rest) as (p & ps & E). now rewrite E.
Qed.

Lemma obj_get_put (k k' v : string) (o : JsObject) :
  obj_get k (obj_put k' v o) = if String.eqb k k' then Some v else obj_get k o.
Proof.
  induction o as [|[k0 v0] o IH]; cbn.
  - reflexivity.
  - destruct (String.eqb k' k0) eqn:E; cbn.
    + apply String.eqb_eq in E. subst k0. now destruct (String.eqb k k').
    + rewrite IH. destruct (String.eqb k k0) eqn:E0; [|reflexivity].
      apply String.eqb_eq in E0. subst k0.
      destruct (String.eqb k k') eqn:E1; [|reflexivity].
      apply String.eqb_eq in E1. subst k'. now rewrite String.eqb_refl in E.
Qed.

Lemma obj_get_assign (k k' v : string) (o : JsObject) :
  obj_get k (obj_assign k' v o)
  = if String.eqb k k' && negb (String.eqb k' "__proto__") then Some v
    else obj_get k o.
Proof.
  unfold obj_assign. destruct (String.eqb k' "__proto__"); cbn.
  - now rewrite andb_false_r.
  - now rewrite obj_get_put, andb_true_r.
Qed.

Lemma get_reducer (k : string) (data : JsObject) (e : option string * option string) :
  obj_get k (trace_reducer data e)
  = match Facts.assigns k e with
    | Some v => Some v
    | None => obj_get k data
    end.
Proof.
  destruct e as [k0 [v|]]; unfold Facts.assigns; cbn; [|reflexivity].
  rewrite obj_get_assign. now destruct (_ && _).
Qed.

Lemma get_fold_last (k : string) (es : list (option string * option string))
    (e : option string * option string) (data : JsObject) :
  obj_get k (fold_left trace_reducer (es ++ [e]) data)
  = match Facts.assigns k e with
    | Some v => Some v
    | None => obj_get k (fold_left trace_reducer es data)
    end.
Proof. rewrite fold_left_app. cbn. apply get_reducer. Qed.

(** The entries applied to [data] are the entries applied to [{}], laid
    over [data]. *)
Lemma get_fold (k : string) (es : list (option string * option string)) :
  forall data : JsObject,
    obj_get k (fold_left trace_reducer es data)
    = match obj_get k (fold_left trace_reducer es []) with
      | Some v => Some v
      | None => obj_get k data
      end.
Proof.
  induction es as [|e es IH] using rev_ind; intro data; [reflexivity|].
  rewrite !get_fold_last. destruct (Facts.assigns k e); [reflexivity|]. apply IH.
Qed.

(** A property of the result was assigned by one of the entries. *)
Lemma get_fold_assigned (k v : string) (es : list (option string * option string)) :
  obj_get k (fold_left trace_reducer es []) = Some v ->
  exists e, In e es /\ Facts.assigns k e = Some v.
Proof.
  induction es as [|e es IH] using rev_ind; [discriminate|].
  rewrite get_fold_last. destruct (Facts.assigns k e) as [v'|] eqn:A.
  - intros [= <-]. exists e. split; [apply in_or_app; right; now left | exact A].
  - intro H. destruct (IH H) as (e' & I & A'). exists e'.
    split; [apply in_or_app; now left | exact A'].
Qed.

Lemma get_fold_defined (k : string) (es : list (option string * option string)) :
  obj_get k (fold_left trace_reducer es []) <> None
  <-> exists e, In e es /\ Facts.assigns k e <> None.
Proof.
  induction es as [|e es IH] using rev_ind.
  - split; [now intros [] | now intros (e & [] & _)].
  - rewrite get_fold_last. split.
    + destruct (Facts.assigns k e) eqn:A.
      * intros _. exists e. split; [apply in_or_app; right; now left | now rewrite A].
      * intro H. apply IH in H. destruct H as (e' & I & A'). exists e'.
        split; [apply in_or_app; now left | exact A'].
    + intros (e' & I & A'). apply in_app_or in I. destruct I as [I | [<- | []]].
      * destruct (Facts.assigns k e); [discriminate|]. apply IH. now exists e'.
      * now destruct (Facts.assigns k e).
Qed.

(** The entry of a line assigns [v] to [k] exactly when the line is
    [k=...], with [v] what stands before the next [=]. *)
Lemma assigns_line (k v line : string) :
  Facts.assigns k (trace_entry line) = Some v
  <-> k <> "__proto__" /\ Facts.free_of "=" k = true
      /\ exists rest, line = (k ++ String "=" rest)%string /\ v = Facts.cut rest.
Proof.
  destruct (first_separator "=" line) as [F | (h & r & -> & F)].
  - rewrite (trace_entry_plain _ F). unfold Facts.assigns. cbn. split; [discriminate|].
    intros (_ & _ & rest & -> & _). rewrite free_of_app in F. cbn in F.
    now rewrite andb_false_r in F.
  - rewrite (trace_entry_assignment _ _ F). unfold Facts.assigns. cbn. split.
    + destruct (String.eqb k h) eqn:E; [|discriminate]. apply String.eqb_eq in E.
      subst h. destruct (String.eqb k "__proto__") eqn:P; [discriminate|].
      intros [= <-]. apply String.eqb_neq in P. repeat split; try assumption.
      now exists r.
    + intros (P & Fk & rest & E & ->).
      destruct (first_separator_unique _ _ _ _ _ F Fk E) as [-> ->].
      apply String.eqb_neq in P. now rewrite String.eqb_refl, P.
Qed.

(** Later lines win: of a text cut at a line feed, the properties are
    those of the second part, and of the first part where the second
    assigns none. *)
Theorem trace_later_lines_win (a b k : string) :
  obj_get k (parseCfCdnCgiTrace (a ++ String line_feed b))
  = match obj_get k (parseCfCdnCgiTrace b) with
    | Some v => Some v
    | None => obj_get k (parseCfCdnCgiTrace a)
    end.
Proof.
  unfold parseCfCdnCgiTrace. rewrite split_app, map_app, fold_left_app.
  apply get_fold.
Qed.

(** A key is defined in the result exactly when it is not [__proto__],
    holds no [=], and some line starts with the key and [=]; every other
    key reads [undefined]. *)
Theorem trace_key_defined (text k : string) :
  obj_get k (parseCfCdnCgiTrace text) <> None
  <-> k <> "__proto__" /\ Facts.free_of "=" k = true
      /\ exists line rest,
           In line (String_split line_feed text)
           /\ line = (k ++ String "=" rest)%string.
Proof.
  unfold parseCfCdnCgiTrace. rewrite get_fold_defined. split.
  - intros (e & I & A). apply in_map_iff in I. destruct I as (line & <- & I).
    destruct (Facts.assigns k (trace_entry line)) as [v|] eqn:E; [|now elim A].
    apply assigns_line in E. destruct E as (P & F & rest & -> & _).
    repeat split; try assumption. now exists (k ++ String "=" rest)%string, rest.
  - intros (P & F & line & rest & I & ->).
    exists (trace_entry (k ++ String "=" rest)). split; [now apply in_map|].
    assert (A : Facts.assigns k (trace_entry (k ++ String "=" rest))
                = Some (Facts.cut rest))
      by (apply assigns_line; repeat split; try assumption; now exists rest).
    now rewrite A.
Qed.

(** A value of the result is the text between the first and the second
    [=] of one line: neither it nor its key holds [=] or a line feed, and
    the key is not [__proto__]. *)
Theorem trace_values_are_cut (text k v : string) :
  obj_get k (parseCfCdnCgiTrace text) = Some v ->
  (exists rest,
      In (k ++ String "=" rest)%string (String_split line_feed text)
      /\ v = Facts.cut rest)
  /\ Facts.free_of "=" v = true /\ Facts.free_of line_feed v = true
  /\ Facts.free_of "=" k = true /\ Facts.free_of line_feed k = true
  /\ k <> "__proto__".
Proof.
  intro H. unfold parseCfCdnCgiTrace in H. apply get_fold_assigned in H.
  destruct H as (e & I & A). apply in_map_iff in I. destruct I as (line & <- & I).
  apply assigns_line in A. destruct A as (P & F & rest & -> & ->).
  pose proof (split_pieces_free line_feed text) as L.
  rewrite Forall_forall in L. specialize (L _ I).
  rewrite free_of_app in L. cbn in L. apply andb_true_iff in L. destruct L as [Lk Lr].
  split; [now exists rest|]. repeat split; try assumption.
  - unfold Facts.cut. pose proof (split_pieces_free "=" rest) as Q.
    destruct (String_split "=" rest); [reflexivity | now inversion Q].
  - unfold Facts.cut. pose proof (split_pieces_keep_free "=" line_feed rest Lr) as Q.
    destruct (String_split "=" rest); [reflexivity | now inversion Q].
Qed.

Lemma split_concat_lines (lines : list string) :
  lines <> [] ->
  Forall (fun l => Facts.free_of line_feed l = true) lines ->
  String_split line_feed (String.concat (String line_feed EmptyString) lines) = lines.
Proof.
  induction lines as [|x [|y r] IH]; intros N F; [contradiction| |].
  - cbn. apply split_free. now inversion F.
  - inversion F as [|? ? Fx Fr]; subst.
    change (String.concat (String line_feed EmptyString) (x :: y :: r))
      with (x ++ String line_feed
                   (String.concat (String line_feed EmptyString) (y :: r)))%string.
    rewrite split_app, (split_free _ _ Fx), IH; [reflexivity | discriminate | exact Fr].
Qed.

(** Round trip: the lines [key=value] of a list of pairs parse back to
    the pairs, the last value of a key winning and each value cut at its
    first [=]. *)
Theorem trace_round_trip (kvs : list (string * string)) (k : string) :
  Forall (fun kv => Facts.trace_key (fst kv) = true
                    /\ Facts.free_of line_feed (snd kv) = true) kvs ->
  obj_get k (parseCfCdnCgiTrace (Facts.render kvs))
  = option_map Facts.cut (obj_get k (rev kvs)).
Proof.
  intro H. destruct kvs as [|kv0 kvs0] eqn:K; [reflexivity|]. rewrite <- K in *.
  assert (N : kvs <> []) by (rewrite K; discriminate). clear K kv0 kvs0.
  unfold parseCfCdnCgiTrace, Facts.render.
  rewrite split_concat_lines.
  2:{ destruct kvs; [contradiction | discriminate]. }
  2:{ apply Forall_map. eapply Forall_impl; [|exact H]. intros [k0 v0] [T F].
      cbn in *. unfold Facts.trace_key in T. rewrite !andb_true_iff in T.
      destruct T as [[_ T] _]. rewrite free_of_app, T. cbn. exact F. }
  clear N. induction kvs as [|[k0 v0] kvs IH] using rev_ind; [reflexivity|].
  apply Forall_app in H. destruct H as [H H0]. inversion H0 as [|? ? [T F] _]; subst.
  cbn in T, F. unfold Facts.trace_key in T. rewrite !andb_true_iff in T.
  destruct T as [[Te Tl] Tp]. rewrite !map_app. cbn [map fst snd].
  rewrite get_fold_last, rev_app_distr.
  change ("=" ++ v0)%string with (String "=" v0).
  rewrite (trace_entry_assignment _ _ Te). unfold Facts.assigns.
  cbn [fst snd ToPropertyKey rev app obj_get option_map].
  rewrite Tp, andb_true_r. destruct (String.eqb k k0); [reflexivity|]. now apply IH.
Qed.

(** The theorem at the three fields [speedTest] reads, [ip] given
    twice. *)
Lemma trace_round_trip_fields :
  obj_get "ip"
    (parseCfCdnCgiTrace
       (Facts.render [("ip", "192.0.2.1"); ("loc", "DE"); ("colo", "FRA");
                      ("ip", "192.0.2.7")]))
  = option_map Facts.cut
      (obj_get "ip" (rev [("ip", "192.0.2.1"); ("loc", "DE"); ("colo", "FRA");
                          ("ip", "192.0.2.7")])).
Proof.
  apply (trace_round_trip
           [("ip", "192.0.2.1"); ("loc", "DE"); ("colo", "FRA"); ("ip", "192.0.2.7")]
           "ip").
  repeat constructor.
Defined.

(** The theorem at a user agent that holds [=]. *)
Lemma trace_values_are_cut_uag :
  (exists rest,
      In ("uag" ++ String "=" rest)%string
        (String_split line_feed "uag=curl/8.5 a=b")
      /\ "curl/8.5 a" = Facts.cut rest)
  /\ Facts.free_of "=" "curl/8.5 a" = true
  /\ Facts.free_of line_feed "curl/8.5 a" = true
  /\ Facts.free_of "=" "uag" = true /\ Facts.free_of line_feed "uag" = true
  /\ "uag" <> "__proto__".
Proof.
  apply (trace_values_are_cut "uag=curl/8.5 a=b" "uag" "curl/8.5 a"). reflexivity.
Defined.

(* ================================================================= *)
(** ** The number in the timing header *)

Lemma digits_value_pos (d : Decimal.uint) : forall p : positive,
  Facts.digits_value (Npos p) d = Npos (Pos.of_uint_acc d p).
Proof.
  induction d; intro p; cbn [Facts.digits_value Pos.of_uint_acc];
    [reflexivity | ..]; rewrite <- IHd; f_equal; lia.
Qed.

Lemma digits_value_0 (d : Decimal.uint) :
  Facts.digits_value 0 d = N.of_uint d.
Proof.
  unfold N.of_uint. induction d; cbn [Facts.digits_value Pos.of_uint];
    [reflexivity | exact IHd | ..]; apply digits_value_pos.
Qed.

Lemma ends_number_no_digit (rest : string) (acc : N) (cnt : nat) :
  Facts.ends_number rest = true -> read_digits acc cnt rest = (acc, cnt, rest).
Proof.
  destruct rest as [|c r]; [reflexivity|]. cbn. intro E.
  apply negb_true_iff in E. rewrite !orb_false_iff in E.
  destruct E as [[[E _] _] _]. now rewrite E.
Qed.

(** Reading the digits of [d], then [rest]. *)
Lemma read_digits_uint (rest : string) (d : Decimal.uint) :
  Facts.ends_number rest = true ->
  forall (acc : N) (cnt : nat),
    read_digits acc cnt (NilEmpty.string_of_uint d ++ rest)
    = (Facts.digits_value acc d, (cnt + Decimal.nb_digits d)%nat, rest).
Proof.
  intro E. induction d; intros acc cnt;
    cbn [NilEmpty.string_of_uint append Facts.digits_value Decimal.nb_digits];
    [ rewrite Nat.add_0_r; now apply ends_number_no_digit | .. ];
    (etransitivity; [apply IHd|]); now rewrite Nat.add_succ_r.
Qed.

Lemma round_decimal_integer (n : N) : round_decimal false n 0 = Num n.
Proof.
  destruct n as [|p]; [reflexivity|]. unfold round_decimal, Num.
  change (0 <=? 0)%Z with true. cbv iota.
  change (10 ^ 0)%Z with 1%Z. now rewrite Z.mul_1_r.
Qed.

Lemma digit_first (s : string) :
  match s with String c _ => is_digit c = true | EmptyString => False end ->
  trim_start s = s /\ read_sign s = (false, s) /\ prefix "Infinity" s = false.
Proof.
  destruct s as [|c r]; [contradiction|].
  destruct c as [[] [] [] [] [] [] [] []]; cbn; try discriminate; now repeat split.
Qed.

Lemma uint_digit_first (d : Decimal.uint) (rest : string) :
  d <> Decimal.Nil ->
  match (NilEmpty.string_of_uint d ++ rest)%string with
  | String c _ => is_digit c = true
  | EmptyString => False
  end /\ exists m, Decimal.nb_digits d = S m.
Proof. destruct d; intro N; [now elim N | ..]; cbn; split; eauto. Qed.

Lemma ends_number_tail (rest : string) :
  Facts.ends_number rest = true ->
  read_exponent rest = 0%Z
  /\ match rest with
     | String "." _ => False
     | _ => True
     end.
Proof.
  destruct rest as [|c r]; [now split|]. cbn. intro E. apply negb_true_iff in E.
  rewrite !orb_false_iff in E. destruct E as [[[_ E1] E2] E3].
  rewrite E2, E3. split; [reflexivity|].
  destruct c as [[] [] [] [] [] [] [] []]; try exact I. discriminate E1.
Qed.

(** [parseFloat] of the decimal digits of [n], whatever follows them that
    is no part of a number. *)
Lemma parseFloat_digits (n : N) (rest : string) :
  Facts.ends_number rest = true ->
  parseFloat (NumberToString n ++ rest) = Num n.
Proof.
  intro E. rewrite <- (DecimalN.Unsigned.of_to n) at 2.
  rewrite <- digits_value_0. unfold NumberToString.
  pose proof (to_uint_nonnil n) as NN.
  replace (NilZero.string_of_uint (N.to_uint n))
    with (NilEmpty.string_of_uint (N.to_uint n))
    by (destruct (N.to_uint n); [now elim NN | reflexivity ..]).
  destruct (uint_digit_first (N.to_uint n) rest NN) as [D [m M]].
  destruct (digit_first _ D) as (T & S & P).
  destruct (ends_number_tail rest E) as [X1 X2].
  unfold parseFloat. rewrite T, S, P, (read_digits_uint rest _ E), M.
  assert (Z : match rest with
              | String "." r => read_digits (Facts.digits_value 0 (N.to_uint n)) 0 r
              | _ => (Facts.digits_value 0 (N.to_uint n), O, rest)
              end = (Facts.digits_value 0 (N.to_uint n), O, rest)).
  { destruct rest as [|c r]; [reflexivity|].
    destruct c as [[] [] [] [] [] [] [] []]; try reflexivity. now elim X2. }
  rewrite Z, X1. cbn [Nat.add Z.of_nat Z.sub Z.opp Z.add].
  apply round_decimal_integer.
Qed.

(** Round trip of the timing header: when the response carries
    [cfRequestDuration;dur=] followed by the decimal digits of a whole
    number of milliseconds, [request] resolves with that number as
    [response[6]], whatever follows the digits that is no part of a
    number. *)
Theorem request_reads_whole_milliseconds (net : Network) (o : Options)
    (data : string) (w : World) (t : Timeline) (n : N) (rest : string) :
  net (List.length (sent w)) {| options := o; body := data |}
  = Ended t (Some ("cfRequestDuration;dur=" ++ NumberToString n ++ rest)%string) ->
  Facts.ends_number rest = true ->
  exists response : Response,
    fst (request net o data w) = Fulfilled response
    /\ serverTiming response = Num n.
Proof.
  intros X E. unfold request. rewrite X. eexists. split; [reflexivity|].
  cbn [serverTiming]. change (slice 22 _) with (NumberToString n ++ rest)%string.
  now apply parseFloat_digits.
Qed.

(** The theorem at a header that lists a second metric. *)
Lemma request_reads_whole_milliseconds_two_metrics :
  exists response : Response,
    fst (request (fun _ _ => Ended Scenario.fresh
                               (Some ("cfRequestDuration;dur=" ++ NumberToString 15
                                      ++ ", cfCacheStatus;desc=HIT")%string))
           (options (Spec.download_request 1000)) "" Scenario.start)
    = Fulfilled response
    /\ serverTiming response = Num 15.
Proof.
  apply (request_reads_whole_milliseconds _ _ _ _ Scenario.fresh 15
           ", cfCacheStatus;desc=HIT"); reflexivity.
Defined.

(* ================================================================= *)
(** ** What the loops keep *)

Section ProbeLoops.

Variable net : Network.
Variable out : Outgoing.
Variable f : Response -> float.

Lemma probes_invariant (n : nat) : forall (acc : list float) (w : World),
  exists (k : nat) (causes : list string),
    (k <= n)%nat
    /\ sent (snd (for_ n (probe net out f) acc w)) = sent w ++ repeat out k
    /\ console (snd (for_ n (probe net out f) acc w))
       = console w ++ Facts.failures causes
    /\ match fst (for_ n (probe net out f) acc w) with
       | Fulfilled measurements =>
           k = n
           /\ exists pushed : list float,
                measurements = acc ++ pushed
                /\ (List.length pushed + List.length causes = n)%nat
       | Rejected _ => False
       | Crashed _ => (List.length causes < k)%nat
       end.
Proof.
  induction n as [|n IH]; intros acc w.
  - exists O, []. cbn. rewrite !app_nil_r.
    split; [lia|]. split; [reflexivity|]. split; [reflexivity|].
    split; [reflexivity|]. exists []. now rewrite app_nil_r.
  - cbn [for_]. unfold bind at 1 2 3.
    destruct (net (List.length (sent w)) out) as [cause | t [h|]] eqn:E.
    + rewrite (probe_errored _ _ _ _ _ _ E).
      destruct (IH acc (Spec.after_failure w out cause))
        as (k & causes & Hk & Hs & Hc & Hm).
      exists (S k), (cause :: causes).
      split; [lia|]. split; [|split].
      * rewrite Hs. cbn. now rewrite <- app_assoc.
      * rewrite Hc. cbn. now rewrite <- app_assoc.
      * destruct (fst (for_ n (probe net out f) acc _)) as [ms | e | e];
          [ | exact Hm | cbn; lia ].
        destruct Hm as (-> & pushed & -> & L). split; [reflexivity|].
        exists pushed. split; [reflexivity | cbn; lia].
    + rewrite (probe_ended _ _ _ _ _ _ _ E).
      destruct (IH (acc ++ [f (Spec.response_of t h)]) (Spec.after_request w out))
        as (k & causes & Hk & Hs & Hc & Hm).
      exists (S k), causes.
      split; [lia|]. split; [|split].
      * rewrite Hs. cbn. now rewrite <- app_assoc.
      * exact Hc.
      * destruct (fst (for_ n (probe net out f) _ _)) as [ms | e | e];
          [ | exact Hm | lia ].
        destruct Hm as (-> & pushed & -> & L). split; [reflexivity|].
        exists (f (Spec.response_of t h) :: pushed).
        split; [now rewrite <- app_assoc | cbn; lia].
    + destruct (probe_bare net out f acc w t E) as [e He]. rewrite He.
      exists 1%nat, []. cbn. rewrite app_nil_r. repeat split; lia.
Qed.

Lemma probes_crash (i : nat) : forall (n : nat) (acc : list float) (w : World)
    (t : Timeline),
  (i < n)%nat ->
  Spec.answered (Spec.exchanges net (List.length (sent w)) i out) ->
  net (List.length (sent w) + i)%nat out = Ended t None ->
  exists e : JsError,
    for_ n (probe net out f) acc w
    = (Crashed e,
       {| sent := sent w ++ repeat out (S i);
          console := console w
                       ++ Spec.error_lines
                            (Spec.exchanges net (List.length (sent w)) i out) |}).
Proof.
  induction i as [|i IH]; intros [|n] acc w t L A B; try lia.
  - rewrite Nat.add_0_r in B. cbn [for_]. unfold bind.
    destruct (probe_bare net out f acc w t B) as [e He]. rewrite He.
    exists e. destruct w as [s c]. cbn. now rewrite app_nil_r.
  - rewrite exchanges_S in *. unfold Spec.answered in A. cbn [forallb] in A.
    apply andb_true_iff in A. destruct A as [A0 A].
    rewrite Nat.add_succ_r in B. cbn [for_]. unfold bind at 1.
    destruct (net (List.length (sent w)) out) as [cause | t0 [h|]] eqn:E;
      [ rewrite (probe_errored _ _ _ _ _ _ E);
        destruct (IH n acc (Spec.after_failure w out cause) t) as [e He]
      | rewrite (probe_ended _ _ _ _ _ _ _ E);
        destruct (IH n (acc ++ [f (Spec.response_of t0 h)])
                    (Spec.after_request w out) t) as [e He]
      | discriminate A0 ];
      try lia;
      try (unfold Spec.after_failure, Spec.after_request; rewrite sent_after;
           assumption);
      exists e; rewrite He;
      unfold Spec.after_failure, Spec.after_request; rewrite sent_after;
      cbn; now rewrite <- !app_assoc.
Qed.

End ProbeLoops.

Lemma loop_invariant (net : Network) (s : Spec.Stage) (n : nat)
    (acc : list float) (w : World) :
  exists (k : nat) (causes : list string),
    (k <= n)%nat
    /\ sent (snd (loop_of net s n acc w))
       = sent w ++ repeat (Spec.request_of s) k
    /\ console (snd (loop_of net s n acc w)) = console w ++ Facts.failures causes
    /\ match fst (loop_of net s n acc w) with
       | Fulfilled measurements =>
           k = n
           /\ exists pushed : list float,
                measurements = acc ++ pushed
                /\ (List.length pushed + List.length causes = n)%nat
       | Rejected _ => False
       | Crashed _ => (List.length causes < k)%nat
       end.
Proof. rewrite loop_of_eq. apply probes_invariant. Qed.

(** A loop never rejects. Whatever the network does, it writes at most
    [n] requests, all its own; it logs nothing but failed probes; when it
    resolves, it wrote [n] requests, kept the values it started with, and
    every probe either pushed a value or logged a failure; when it
    crashes, it wrote the request that crashed and one for each probe
    before it, of which some logged a failure and the others pushed a
    value that is lost. *)
Theorem loop_never_rejects (net : Network) (s : Spec.Stage) (n : nat)
    (acc : list float) (w : World) :
  exists (k : nat) (causes : list string),
    (k <= n)%nat
    /\ sent (snd (loop_of net s n acc w))
       = sent w ++ repeat (Spec.request_of s) k
    /\ console (snd (loop_of net s n acc w)) = console w ++ Facts.failures causes
    /\ match fst (loop_of net s n acc w) with
       | Fulfilled measurements =>
           k = n
           /\ exists pushed : list float,
                measurements = acc ++ pushed
                /\ (List.length pushed + List.length causes = n)%nat
       | Rejected _ => False
       | Crashed _ =>
           exists lost : nat, k = S (lost + List.length causes)
       end.
Proof.
  destruct (loop_invariant net s n acc w) as (k & causes & Hk & Hs & Hc & Hm).
  exists k, causes. repeat split; try assumption.
  destruct (fst (loop_of net s n acc w)) as [ms | e | e]; try exact Hm.
  exists (k - S (List.length causes))%nat. lia.
Qed.

(** The first response without the timing header ends the run: the loop
    crashes at that request, with the failures before it logged, the
    values gathered so far lost and no further request written. *)
Theorem first_bare_response_ends_the_loop (net : Network) (s : Spec.Stage)
    (n i : nat) (acc : list float) (w : World) (t : Timeline) :
  (i < n)%nat ->
  Spec.answered (Spec.exchanges net (List.length (sent w)) i (Spec.request_of s)) ->
  net (List.length (sent w) + i)%nat (Spec.request_of s) = Ended t None ->
  exists e : JsError,
    loop_of net s n acc w
    = (Crashed e,
       {| sent := sent w ++ repeat (Spec.request_of s) (S i);
          console := console w
                       ++ Spec.error_lines
                            (Spec.exchanges net (List.length (sent w)) i
                               (Spec.request_of s)) |}).
Proof. intros L A B. rewrite loop_of_eq. now apply probes_crash with (t := t). Qed.

(** The theorem at a latency stage whose third response has no timing
    header. *)
Lemma first_bare_response_ends_the_loop_third :
  exists e : JsError,
    loop_of Scenario.headerless_third Spec.Latency 20 [] Scenario.start
    = (Crashed e,
       {| sent := repeat (Spec.download_request 1000) 3;
          console := Spec.error_lines
                       (Spec.exchanges Scenario.headerless_third 0 2
                          (Spec.download_request 1000)) |}).
Proof.
  apply (first_bare_response_ends_the_loop Scenario.headerless_third Spec.Latency
           20 2 [] Scenario.start Scenario.fresh); [cbn; lia | reflexivity ..].
Defined.

(* ================================================================= *)
(** ** What each stage reads *)

(** Each stage reads its own part of an exchange: the latency stage never
    [ended]; the download stage neither [started] nor the number in the
    header; the upload stage no clock at all. Two networks alike in what a
    stage reads give its loop the same result, requests and console. *)
Theorem stage_reads_its_fields_only (net net' : Network) (s : Spec.Stage) :
  (forall k out, Facts.reads_alike s (net k out) (net' k out)) ->
  forall (n : nat) (acc : list float) (w : World),
    loop_of net s n acc w = loop_of net' s n acc w.
Proof.
  intros H n. rewrite !loop_of_eq. apply for_ext. intros acc w.
  unfold probe, then2, request. rewrite outgoing_eta.
  specialize (H (List.length (sent w)) (Spec.request_of s)).
  destruct (net _ _) as [c | t h], (net' _ _) as [c' | t' h']; cbn in H;
    try contradiction.
  - now subst c'.
  - destruct s as [|bytes|bytes].
    + destruct H as (H0 & H4 & <-). destruct h as [a|]; [|reflexivity].
      unfold ret. cbn. now rewrite H0, H4.
    + destruct H as (H4 & H5 & [Hn Hn']).
      destruct h as [a|], h' as [a'|];
        [ | now specialize (Hn' eq_refl) | now specialize (Hn eq_refl) | reflexivity ].
      unfold ret. cbn. now rewrite H4, H5.
    + destruct h as [a|], h' as [a'|]; try contradiction; [|reflexivity].
      unfold ret. cbn. now rewrite H.
Qed.

(** The theorem at an upload stage under two different clocks. *)
Lemma stage_reads_its_fields_only_upload :
  loop_of Scenario.steady (Spec.Upload 11000) 10 [] Scenario.start
  = loop_of Scenario.slow_clock (Spec.Upload 11000) 10 [] Scenario.start.
Proof.
  apply (stage_reads_its_fields_only Scenario.steady Scenario.slow_clock
           (Spec.Upload 11000)).
  intros k out. reflexivity.
Defined.

(* ================================================================= *)
(** ** The requests of a run *)

Lemma request_of_probe_shaped (s : Spec.Stage) : Facts.probe_shaped (Spec.request_of s).
Proof.
  destruct s as [|bytes|bytes]; [exists 1000%N | exists bytes | exists bytes]; cbn; auto.
Qed.

Lemma writes_weaken {A} (b b' : nat) (m : Async A) :
  Facts.writes_probes b m -> (b <= b')%nat -> Facts.writes_probes b' m.
Proof.
  intros H L w. destruct (H w) as (l & Hs & Hp & Hl). exists l. repeat split; [assumption..|lia].
Qed.

Lemma writes_ret {A} (a : A) : Facts.writes_probes 0 (ret a).
Proof. intro w. exists []. cbn. now rewrite app_nil_r. Qed.

Lemma writes_call {A} (c : Completion A) : Facts.writes_probes 0 (call c).
Proof. intro w. exists []. destruct c; cbn; now rewrite app_nil_r. Qed.

Lemma writes_log (l : ConsoleLine) : Facts.writes_probes 0 (console_log l).
Proof. intro w. exists []. cbn. now rewrite app_nil_r. Qed.

Lemma writes_bind {A B} (b1 b2 : nat) (m : Async A) (k : A -> Async B) :
  Facts.writes_probes b1 m -> (forall a, Facts.writes_probes b2 (k a)) ->
  Facts.writes_probes (b1 + b2) (bind m k).
Proof.
  intros Hm Hk w. destruct (Hm w) as (l1 & Hs1 & Hp1 & Hl1). unfold bind.
  destruct (m w) as [[a | e | e] w1]; cbn in *.
  - destruct (Hk a w1) as (l2 & Hs2 & Hp2 & Hl2). exists (l1 ++ l2).
    rewrite Hs2, Hs1, <- app_assoc, length_app. repeat split;
      [now apply Forall_app | lia].
  - exists l1. repeat split; [assumption.. | lia].
  - exists l1. repeat split; [assumption.. | lia].
Qed.

Lemma writes_loop (net : Network) (s : Spec.Stage) (n : nat) (acc : list float) :
  Facts.writes_probes n (loop_of net s n acc).
Proof.
  intro w. destruct (loop_invariant net s n acc w) as (k & causes & Hk & Hs & _).
  exists (repeat (Spec.request_of s) k). rewrite repeat_length. repeat split;
    [exact Hs | | exact Hk].
  apply Forall_forall. intros x I. apply repeat_spec in I. subst x.
  apply request_of_probe_shaped.
Qed.

Ltac writes :=
  repeat first
    [ apply writes_loop | apply writes_log | apply writes_call | apply writes_ret
    | eapply writes_bind; [|intro] ].

(** Whatever the network does, the engine writes nothing but the requests
    of probes, each to the fixed host as a GET of [/__down] or a POST of
    [/__up], and never more than its plan holds: 20 for the latency, 43
    for the downloads, 28 for the uploads, 91 after the metadata of a
    run. *)
Theorem stages_write_probes_only (net : Network) :
  Facts.writes_probes 20 (measureLatency net)
  /\ (forall bytes n, Facts.writes_probes n (measureDownload net bytes n))
  /\ (forall bytes n, Facts.writes_probes n (measureUpload net bytes n))
  /\ Facts.writes_probes 20 (latencyStage net)
  /\ Facts.writes_probes 43 (downloadStage net)
  /\ Facts.writes_probes 28 (uploadStage net)
  /\ forall (metadata : Async unit) (w : World),
       exists l : list Outgoing,
         sent (snd (speedTest net metadata w)) = sent (snd (metadata w)) ++ l
         /\ Forall Facts.probe_shaped l
         /\ (List.length l <= 91)%nat.
Proof.
  assert (HL : Facts.writes_probes 20 (measureLatency net)).
  { unfold measureLatency.
    change (latencyLoop net 20 []) with (loop_of net Spec.Latency 20 []).
    eapply writes_weaken; [writes | cbn; lia]. }
  assert (HD : forall bytes n, Facts.writes_probes n (measureDownload net bytes n))
    by (intros bytes n; exact (writes_loop net (Spec.Download bytes) n [])).
  assert (HU : forall bytes n, Facts.writes_probes n (measureUpload net bytes n))
    by (intros bytes n; exact (writes_loop net (Spec.Upload bytes) n [])).
  assert (SL : Facts.writes_probes 20 (latencyStage net)).
  { unfold latencyStage. eapply writes_weaken.
    - eapply writes_bind; [exact HL | intros [[[? ?] ?] ?]; apply writes_log].
    - lia. }
  assert (SD : Facts.writes_probes 43 (downloadStage net)).
  { unfold downloadStage, logSpeedTestResult. eapply writes_weaken.
    - repeat first [ apply HD | apply writes_log | apply writes_call
                   | eapply writes_bind; [|intro] ].
    - cbn; lia. }
  assert (SU : Facts.writes_probes 28 (uploadStage net)).
  { unfold uploadStage. eapply writes_weaken.
    - repeat first [ apply HU | apply writes_log | apply writes_call
                   | eapply writes_bind; [|intro] ].
    - cbn; lia. }
  repeat split; try assumption.
  intros metadata w. unfold speedTest, bind at 1.
  destruct (metadata w) as [[u | e | e] w1]; cbn [snd];
    [ | exists []; rewrite app_nil_r; repeat split; [constructor | cbn; lia] .. ].
  assert (R : Facts.writes_probes 91
                (bind (latencyStage net)
                   (fun _ => bind (downloadStage net) (fun _ => uploadStage net)))).
  { eapply writes_weaken.
    - eapply writes_bind; [exact SL | intro].
      eapply writes_bind; [exact SD | intro; exact SU].
    - cbn; lia. }
  exact (R w1).
Qed.

(** A response without the timing header in the latency stage ends the
    whole run there: [speedTest] crashes with the requests of the metadata
    and of the probes up to that one written, the failures before it
    logged, no latency printed and no download or upload started. *)
Theorem bare_latency_response_ends_speedTest (net : Network)
    (metadata : Async unit) (w w1 : World) (i : nat) (t : Timeline) :
  metadata w = (Fulfilled tt, w1) ->
  (i < 20)%nat ->
  Spec.answered
    (Spec.exchanges net (List.length (sent w1)) i (Spec.download_request 1000)) ->
  net (List.length (sent w1) + i)%nat (Spec.download_request 1000) = Ended t None ->
  exists e : JsError,
    speedTest net metadata w
    = (Crashed e,
       {| sent := sent w1 ++ repeat (Spec.download_request 1000) (S i);
          console := console w1
                       ++ Spec.error_lines
                            (Spec.exchanges net (List.length (sent w1)) i
                               (Spec.download_request 1000)) |}).
Proof.
  intros M L A B.
  destruct (probes_crash net (Spec.request_of Spec.Latency)
              (Spec.sample_of Spec.Latency) i 20 [] w1 t L A B) as [e He].
  exists e.
  assert (E : latencyStage net w1
              = (Crashed e,
                 {| sent := sent w1 ++ repeat (Spec.download_request 1000) (S i);
                    console := console w1
                                 ++ Spec.error_lines
                                      (Spec.exchanges net (List.length (sent w1)) i
                                         (Spec.download_request 1000)) |})).
  { unfold latencyStage, measureLatency, bind.
    change (latencyLoop net 20) with (loop_of net Spec.Latency 20).
    rewrite loop_of_eq, He. reflexivity. }
  unfold speedTest, bind at 1. rewrite M. unfold bind at 1. now rewrite E.
Qed.

(** The theorem at a run without metadata whose third latency response
    has no timing header. *)
Lemma bare_latency_response_ends_speedTest_third :
  exists e : JsError,
    speedTest Scenario.headerless_third (ret tt) Scenario.start
    = (Crashed e,
       {| sent := repeat (Spec.download_request 1000) 3;
          console := Spec.error_lines
                       (Spec.exchanges Scenario.headerless_third 0 2
                          (Spec.download_request 1000)) |}).
Proof.
  apply (bare_latency_response_ends_speedTest Scenario.headerless_third (ret tt)
           Scenario.start Scenario.start 2 Scenario.fresh);
    [reflexivity | cbn; lia | reflexivity ..].
Defined.
